(** * Like4Like multi-mode bot (Run.py): a shallow embedding and its properties

    The program is a linear sequence of HTTP calls, file accesses, console
    prompts and sleeps.  It is embedded as state-passing code over an
    explicit state (the outside world, the storage directory, the log of
    observable events) in a small state-and-exception monad.  What the
    outside world and the Python libraries answer is left open in the class
    [Runtime]; every property below holds for all of its instances.

    Conventions of the model:
    - a Python [str] is a Rocq [string] (code points below 256; in that
      range the regular-expression class [\d] is exactly [0-9]);
    - a value decoded from JSON is a [json]; numbers are integers;
    - every exception of the model is a subclass of Python's [Exception], so
      [except Exception] catches all of them;
    - HTTP headers set through [session.headers.update] are not part of the
      request record: nothing in the control flow reads them. *)

From Stdlib Require Import ZArith String Ascii List Bool Lia DecimalString.
Import ListNotations.
Open Scope string_scope.
Open Scope Z_scope.

(** ** Python strings *)

(** [s[n:]] *)
Fixpoint drop (n : nat) (s : string) : string :=
  match n, s with
  | O, _ => s
  | S _, EmptyString => EmptyString
  | S n', String _ s' => drop n' s'
  end.

(** [s[:n]] *)
Fixpoint take (n : nat) (s : string) : string :=
  match n, s with
  | O, _ => EmptyString
  | S _, EmptyString => EmptyString
  | S n', String c s' => String c (take n' s')
  end.

(** [s.startswith(p)] *)
Definition startswith (s p : string) : bool := String.prefix p s.

(** [needle in hay] *)
Fixpoint contains (needle hay : string) : bool :=
  if String.prefix needle hay then true
  else match hay with
       | EmptyString => false
       | String _ hay' => contains needle hay'
       end.

(** [s.replace(old, new)] for a non-empty [old]: occurrences are replaced
    from the left and do not overlap.  [skip] counts the characters of an
    occurrence just replaced that are still to be passed over. *)
Fixpoint replace_from (old new : string) (skip : nat) (s : string) : string :=
  match s with
  | EmptyString => EmptyString
  | String c s' =>
      match skip with
      | S k => replace_from old new k s'
      | O =>
          if String.prefix old s
          then new ++ replace_from old new (Nat.pred (String.length old)) s'
          else String c (replace_from old new O s')
      end
  end.

Definition replace (old new s : string) : string := replace_from old new O s.

(** [s.lstrip(...)], [s.rstrip(...)] and [s.strip(...)] for the set of
    characters recognised by [p] *)
Fixpoint lstrip_by (p : ascii -> bool) (s : string) : string :=
  match s with
  | String d s' => if p d then lstrip_by p s' else s
  | EmptyString => EmptyString
  end.

Fixpoint rstrip_by (p : ascii -> bool) (s : string) : string :=
  match s with
  | EmptyString => EmptyString
  | String d s' =>
      match rstrip_by p s' with
      | EmptyString => if p d then EmptyString else String d EmptyString
      | r => String d r
      end
  end.

Definition strip_by (p : ascii -> bool) (s : string) : string :=
  rstrip_by p (lstrip_by p s).

(** [s.strip('/')] *)
Definition strip_slash (s : string) : string :=
  strip_by (fun c => Ascii.eqb c "/"%char) s.

(** [c.isspace()] on code points below 256 *)
Definition is_space (c : ascii) : bool :=
  let n := nat_of_ascii c in
  ((Nat.leb 9 n && Nat.leb n 13) || (Nat.leb 28 n && Nat.leb n 32)
   || Nat.eqb n 133 || Nat.eqb n 160)%bool.

(** [s.strip()] *)
Definition strip (s : string) : string := strip_by is_space s.

(** [str(n)] for an integer *)
Definition str_of_int (n : Z) : string := NilZero.string_of_int (Z.to_int n).

(** ** The regular expressions of the program

    The three patterns of Run.py have one shape: a literal, one capturing
    group [(C+)] over a character class, a literal.  [re_search] is
    [re.search(...)] followed by [.group(1)]: the leftmost position where the
    pattern matches; the group is greedy and gives characters back one at a
    time until the closing literal follows. *)

Record pattern : Type := Pattern {
  p_pre  : string;
  p_cls  : ascii -> bool;
  p_post : string
}.

(** length of the longest run of class characters at the head of [s] *)
Fixpoint span (cls : ascii -> bool) (s : string) : nat :=
  match s with
  | String c s' => if cls c then S (span cls s') else O
  | EmptyString => O
  end.

(** try a group of [k] characters, then [k-1], ... down to one *)
Fixpoint backtrack (post rest : string) (k : nat) : option string :=
  match k with
  | O => None
  | S k' =>
      if String.prefix post (drop k rest) then Some (take k rest)
      else backtrack post rest k'
  end.

Definition match_here (p : pattern) (s : string) : option string :=
  if String.prefix (p_pre p) s then
    let rest := drop (String.length (p_pre p)) s in
    backtrack (p_post p) rest (span (p_cls p) rest)
  else None.

Fixpoint re_search (p : pattern) (s : string) : option string :=
  match match_here p s with
  | Some g => Some g
  | None =>
      match s with
      | EmptyString => None
      | String _ s' => re_search p s'
      end
  end.

(** [\d] *)
Definition is_digit (c : ascii) : bool :=
  let n := nat_of_ascii c in (Nat.leb 48 n && Nat.leb n 57)%bool.

(** [[^;]] *)
Definition not_semicolon (c : ascii) : bool := negb (Ascii.eqb c ";"%char).

(** the one-character string holding a double quote *)
Definition dq : string := String (ascii_of_nat 34) EmptyString.

(** the literal ["success":true] *)
Definition success_marker : string := Eval cbv in dq ++ "success" ++ dq ++ ":true".

(** the literal ["credits"] *)
Definition credits_key : string := Eval cbv in dq ++ "credits" ++ dq.

(** the pattern ["credits":"(\d+)"] *)
Definition re_credits : pattern :=
  Pattern (credits_key ++ ":" ++ dq) is_digit dq.

(** the pattern ["profilePage_(\d+)"] *)
Definition re_profile_page : pattern :=
  Pattern (dq ++ "profilePage_") is_digit dq.

(** the pattern [csrftoken=([^;]+);] *)
Definition re_csrftoken : pattern := Pattern "csrftoken=" not_semicolon ";".

(** ** Exceptions and results *)

(** The exception classes that occur; all of them derive from [Exception].
    [ERequest] stands for the transport errors of the HTTP library
    (connection refused, timeout, ...). *)
Inductive exn : Type :=
| EOSError | EValueError | EKeyError | ETypeError | EAttributeError | ERequest.

Definition exn_eqb (a b : exn) : bool :=
  match a, b with
  | EOSError, EOSError | EValueError, EValueError | EKeyError, EKeyError
  | ETypeError, ETypeError | EAttributeError, EAttributeError
  | ERequest, ERequest => true
  | _, _ => false
  end.

(** What a call gives: a value or a raised exception. *)
Inductive result (A : Type) : Type :=
| Ret (a : A)
| Raise (e : exn).

Arguments Ret {A} a.
Arguments Raise {A} e.

(** How the observation of [run] ends: it returned, or it is still inside
    [while True] after the number of rounds that were followed (the loop
    itself never ends normally). *)
Inductive run_end : Type :=
| Returned
| Running.

(** ** Values decoded from JSON *)

#[local] Set Warnings "-register-all".

Inductive json : Type :=
| JNull
| JBool (b : bool)
| JNum (n : Z)
| JStr (s : string)
| JList (l : list json)
| JDict (d : list (string * json)).

(** [bool(v)] *)
Definition truthy (v : json) : bool :=
  match v with
  | JNull => false
  | JBool b => b
  | JNum n => negb (n =? 0)
  | JStr s => negb (String.eqb s "")
  | JList l => match l with [] => false | _ => true end
  | JDict d => match d with [] => false | _ => true end
  end.

(** a dict keeps its keys in insertion order, each key once *)
Fixpoint assoc_get {V : Type} (k : string) (d : list (string * V)) : option V :=
  match d with
  | [] => None
  | (k', v) :: d' => if String.eqb k k' then Some v else assoc_get k d'
  end.

Fixpoint assoc_set {V : Type} (k : string) (v : V) (d : list (string * V))
  : list (string * V) :=
  match d with
  | [] => [(k, v)]
  | (k', v') :: d' =>
      if String.eqb k k' then (k, v) :: d' else (k', v') :: assoc_set k v d'
  end.

(** [v.get(k, default)] *)
Definition py_get (v : json) (k : string) (default : json) : result json :=
  match v with
  | JDict d => Ret (match assoc_get k d with Some x => x | None => default end)
  | _ => Raise EAttributeError
  end.

(** [v[k]] with a string key *)
Definition py_getitem (v : json) (k : string) : result json :=
  match v with
  | JDict d => match assoc_get k d with Some x => Ret x | None => Raise EKeyError end
  | _ => Raise ETypeError
  end.

(** [v[k] = x] with a string key *)
Definition py_setitem (v : json) (k : string) (x : json) : result json :=
  match v with
  | JDict d => Ret (JDict (assoc_set k x d))
  | _ => Raise ETypeError
  end.

Fixpoint chars (s : string) : list json :=
  match s with
  | EmptyString => []
  | String c s' => JStr (String c EmptyString) :: chars s'
  end.

(** the items [for t in v] goes through *)
Definition py_iter (v : json) : result (list json) :=
  match v with
  | JList l => Ret l
  | JDict d => Ret (map (fun kv => JStr (fst kv)) d)
  | JStr s => Ret (chars s)
  | _ => Raise ETypeError
  end.

(** [isinstance(v, dict)] *)
Definition is_dict (v : json) : bool :=
  match v with JDict _ => true | _ => false end.

(** ** The compiled-in tables *)

Record feat : Type := Feat {
  f_feature : string;
  f_earn    : string;
  f_vrsta   : string
}.

Definition FEATURES : list (string * feat) :=
  [ ("yt_like",      Feat "youtube"      "/user/earn-youtube.php"            "like");
    ("yt_subscribe", Feat "youtubes"     "/user/earn-youtube-subscribe.php"  "subscribe");
    ("ig_follow",    Feat "instagramfol" "/user/earn-instagram-follow.php"   "follow");
    ("tw_follow",    Feat "twitter"      "/user/earn-twitter.php"            "follow");
    ("tw_like",      Feat "twitterfav"   "/user/earn-twitter-favorites.php"  "like");
    ("tw_retweet",   Feat "twitterret"   "/user/earn-twitter-retweet.php"    "retweet") ].

Definition PLATFORM_COOKIE_KEYS : list (string * string) :=
  [ ("yt_like", "Cookies_Youtube");
    ("yt_subscribe", "Cookies_Youtube");
    ("ig_follow", "Cookies_Instagram");
    ("tw_follow", "Cookies_Twitter");
    ("tw_like", "Cookies_Twitter");
    ("tw_retweet", "Cookies_Twitter") ].

(** the [mapping] of [menu] *)
Definition menu_mapping : list (string * string) :=
  [ ("1", "yt_like"); ("2", "yt_subscribe"); ("3", "ig_follow");
    ("4", "tw_follow"); ("5", "tw_like"); ("6", "tw_retweet"); ("7", "exit") ].

(** [x in (a, b, ...)] *)
Definition str_in (x : string) (l : list string) : bool :=
  existsb (String.eqb x) l.

(** ** HTTP requests and responses, the storage directory, events *)

Inductive method : Type := GET | POST.

Record request : Type := Request {
  r_method  : method;
  r_url     : string;
  r_data    : list (string * json);   (* the form body of a POST *)
  r_cookie  : json;                   (* cookies={'Cookie': ...} *)
  r_timeout : option Z                (* timeout=..., in seconds *)
}.

Record response : Type := Response {
  status_code : Z;
  text        : string
}.

(** [resp.ok]: the status is not a client or server error *)
Definition ok (r : response) : bool :=
  negb ((400 <=? status_code r) && (status_code r <? 600)).

(** The file Penyimpanan/Cookies.json. *)
Inductive file_state : Type :=
| Missing                      (* os.path.exists is False *)
| Regular (content : string)   (* opens and reads as text *)
| Broken.                      (* exists, but opening or reading it raises *)

(** The directory Penyimpanan: absent (and then [os.makedirs] creates it
    or raises), or present with the cookies file in it; [writable] tells
    whether the file can be opened for writing. *)
Inductive fs : Type :=
| NoDir (creatable : bool)
| HasDir (cookies : file_state) (writable : bool).

(** What [rprint] shows, by kind and payload. *)
Inductive message : Type :=
| MsgBanner
| MsgStatus (username : string) (credits : Z)
| MsgAskL4LCookies
| MsgAskPlatformCookies (label : string)
| MsgCookiesInvalid
| MsgVerifyFailed
| MsgAskDelay
| MsgMenu
| MsgExit
| MsgNoTasks
| MsgTaskIncomplete
| MsgStartFailed (idlink : string)
| MsgNoRedirect
| MsgActionFailed (idlink : string)
| MsgSuccess (feature vrsta url : string) (credits : Z)
| MsgValidateFailed (idlink : string)
| MsgCountdown (minutes seconds : Z)
| MsgNothingProcessed
| MsgUnhandled (e : exn).

Inductive event : Type :=
| EvRequest (r : request)
| EvSleep (seconds : Z)
| EvPrint (m : message)
| EvInput.

(** ** The outside world and the libraries *)

Class Runtime : Type := {
  World : Type;
  (** sending a request: a response or an exception of the transport *)
  http_send : request -> World -> result response * World;
  (** [Console().input(...)] *)
  console_input : World -> string * World;
  (** [int(datetime.datetime.now().timestamp() * 1000)] *)
  clock_ms : World -> Z * World;
  (** [json.loads] *)
  json_loads : string -> result json;
  (** [json.dumps(..., indent=2)] *)
  json_dumps : json -> string;
  (** [int(s)] on a string; [None] is [ValueError] *)
  py_int : string -> option Z;
  (** [str(v)] on a list or a dict *)
  py_repr : json -> string
}.

(** ** The program *)

Section Program.

Context {RT : Runtime}.

Record state : Type := State {
  world : World;
  disk  : fs;
  log   : list event
}.

(** Code with effects: a state transformer that gives a [result]. *)
Definition M (A : Type) : Type := state -> result A * state.

Definition ret {A : Type} (a : A) : M A := fun s => (Ret a, s).

Definition raise {A : Type} (e : exn) : M A := fun s => (Raise e, s).

Definition bind {A B : Type} (m : M A) (k : A -> M B) : M B :=
  fun s =>
    match m s with
    | (Ret a, s') => k a s'
    | (Raise e, s') => (Raise e, s')
    end.

(** [try: m  except <classes> as e: h e]; the classes are those [catches]
    accepts *)
Definition try_except_as {A : Type} (catches : exn -> bool) (m : M A)
    (h : exn -> M A) : M A :=
  fun s =>
    match m s with
    | (Raise e, s') => if catches e then h e s' else (Raise e, s')
    | r => r
    end.

(** [try: m  except <classes>: h] *)
Definition try_except {A : Type} (catches : exn -> bool) (m : M A) (h : M A) : M A :=
  try_except_as catches m (fun _ => h).

(** [except Exception] *)
Definition any_exception (e : exn) : bool := true.

(** a library call that returns or raises *)
Definition lift {A : Type} (r : result A) : M A := fun s => (r, s).

Notation "x <- m ;; k" := (bind m (fun x => k))
  (at level 100, m at next level, right associativity).
Notation "m ;; k" := (bind m (fun _ => k))
  (at level 100, right associativity).

Definition emit (e : event) : M unit :=
  fun s => (Ret tt, State (world s) (disk s) (log s ++ [e])).

(** [time.sleep(n)] *)
Definition sleep (n : Z) : M unit := emit (EvSleep n).

Definition rprint (m : message) : M unit := emit (EvPrint m).

(** [Console().input(...)] *)
Definition input : M string :=
  fun s =>
    let (line, w) := console_input (world s) in
    (Ret line, State w (disk s) (log s ++ [EvInput])).

Definition now_ms : M Z :=
  fun s =>
    let (t, w) := clock_ms (world s) in
    (Ret t, State w (disk s) (log s)).

(** one HTTP exchange *)
Definition http (r : request) : M response :=
  fun s =>
    let (o, w) := http_send r (world s) in
    (o, State w (disk s) (log s ++ [EvRequest r])).

(** [f'{v}'] *)
Definition fstr (v : json) : string :=
  match v with
  | JStr s => s
  | JNull => "None"
  | JBool true => "True"
  | JBool false => "False"
  | JNum n => str_of_int n
  | _ => py_repr v
  end.

(** [int(v)] *)
Definition int_of (v : json) : result Z :=
  match v with
  | JNum n => Ret n
  | JBool b => Ret (if b then 1 else 0)
  | JStr s => match py_int s with Some n => Ret n | None => Raise EValueError end
  | _ => Raise ETypeError
  end.

(** *** File access *)

(** [os.path.isdir(PENYIMPANAN_DIR)] *)
Definition isdir : M bool :=
  fun s => (Ret (match disk s with HasDir _ _ => true | NoDir _ => false end), s).

(** [os.makedirs(PENYIMPANAN_DIR, exist_ok=True)] *)
Definition makedirs : M unit :=
  fun s =>
    match disk s with
    | HasDir _ _ => (Ret tt, s)
    | NoDir true => (Ret tt, State (world s) (HasDir Missing true) (log s))
    | NoDir false => (Raise EOSError, s)
    end.

(** [os.path.exists(COOKIES_PATH)] *)
Definition path_exists : M bool :=
  fun s =>
    (Ret (match disk s with
          | HasDir (Regular _) _ | HasDir Broken _ => true
          | _ => false
          end), s).

(** [open(COOKIES_PATH, "r", encoding="utf-8")] and reading all of it *)
Definition read_file : M string :=
  fun s =>
    match disk s with
    | HasDir (Regular c) _ => (Ret c, s)
    | _ => (Raise EOSError, s)
    end.

(** [open(COOKIES_PATH, "w", encoding="utf-8")] and writing [c] *)
Definition write_file (c : string) : M unit :=
  fun s =>
    match disk s with
    | HasDir _ true => (Ret tt, State (world s) (HasDir (Regular c) true) (log s))
    | _ => (Raise EOSError, s)
    end.

(** *** class Store *)

Definition Store_ensure_dir : M unit :=
  d <- isdir ;;
  if negb d then makedirs else ret tt.

Definition Store_load : M json :=
  Store_ensure_dir ;;
  e <- path_exists ;;
  if negb e then ret (JDict [])
  else
    try_except any_exception
      (c <- read_file ;; lift (json_loads c))
      (ret (JDict [])).

Definition Store_save (data : json) : M unit :=
  Store_ensure_dir ;;
  write_file (json_dumps data).

(** *** class L4L

    The client object holds the session cookie string; the methods take it
    as their first argument. *)

Definition BASE : string := "https://www.like4like.org".

Definition L4L_warmup (cookies_l4l : json) (earn_path : string) : M unit :=
  http (Request GET (BASE ++ earn_path) [] cookies_l4l None) ;;
  ret tt.

Definition L4L_get_user_info (cookies_l4l : json) : M json :=
  r <- try_except any_exception
         (resp <- http (Request GET (BASE ++ "/api/get-user-info.php") []
                          cookies_l4l (Some 30)) ;;
          if ok resp && contains "success" (text resp)
          then j <- lift (json_loads (text resp)) ;;
               data <- lift (py_get j "data" JNull) ;;
               ret (Some data)
          else ret None)
         (ret None) ;;
  match r with
  | Some data => ret data
  | None => ret JNull
  end.

Definition L4L_get_tasks (cookies_l4l : json) (feature : string) : M json :=
  r <- try_except any_exception
         (let url := BASE ++ "/api/get-tasks.php?feature=" ++ feature in
          resp <- http (Request GET url [] cookies_l4l (Some 30)) ;;
          if ok resp && contains "success" (text resp)
          then j <- lift (json_loads (text resp)) ;;
               d <- lift (py_get j "data" (JDict [])) ;;
               t <- lift (py_get d "tasks" (JList [])) ;;
               ret (Some t)
          else ret None)
         (ret None) ;;
  match r with
  | Some t => ret t
  | None => ret JNull
  end.

Definition start_task_url (idlink taskId : json) (feature ts_ms : string) : string :=
  BASE ++ "/api/start-task.php?idzad=" ++ fstr idlink ++ "&vrsta=" ++ feature
       ++ "&idcod=" ++ fstr taskId ++ "&feature=" ++ feature ++ "&_=" ++ ts_ms.

Definition L4L_start_task (cookies_l4l : json) (idlink taskId : json)
    (feature : string) : M bool :=
  t <- now_ms ;;
  let ts_ms := str_of_int t in
  let url := start_task_url idlink taskId feature ts_ms in
  try_except any_exception
    (resp <- http (Request GET url [] cookies_l4l (Some 30)) ;;
     if contains success_marker (text resp) then ret true else ret false)
    (ret false).

Definition L4L_check_url (cookies_l4l : json) (target_url : string) : M bool :=
  try_except any_exception
    (resp <- http (Request POST (BASE ++ "/checkurl.php")
                     [("url", JStr target_url)] cookies_l4l (Some 30)) ;;
     ret (ok resp && contains "http" (text resp)))
    (ret false).

Definition validate_data (feature vrsta : string) (idlinka idzad idclana : json)
    (target_url : string) : list (string * json) :=
  [ ("url", JStr target_url);
    ("idlinka", idlinka);
    ("idzad", idzad);
    ("addon", JBool false);
    ("version", JStr "");
    ("idclana", idclana);
    ("cnt", JBool true);
    ("vrsta", JStr vrsta);
    ("feature", JStr feature) ].

Definition L4L_validate (cookies_l4l : json) (feature vrsta : string)
    (idlinka idzad idclana : json) (target_url : string) : M (option string) :=
  let data := validate_data feature vrsta idlinka idzad idclana target_url in
  try_except any_exception
    (resp <- http (Request POST (BASE ++ "/api/validate-task.php") data
                     cookies_l4l (Some 30)) ;;
     if ok resp && contains success_marker (text resp)
        && contains credits_key (text resp)
     then ret (re_search re_credits (text resp))
     else ret None)
    (ret None).

(** *** class Actions *)

Definition Actions_open_with_cookies (url : string) (cookies : json) : M bool :=
  try_except any_exception
    (r <- http (Request GET url [] cookies (Some 30)) ;;
     ret (status_code r =? 200))
    (ret false).

Definition follow_data (profile_id : string) : list (string * json) :=
  [ ("container_module", JStr "profile");
    ("nav_chain", JStr "PolarisProfilePostsTabRoot:profilePage:1:via_cold_start");
    ("user_id", JStr profile_id) ].

Definition follow_url (profile_id : string) : string :=
  "https://www.instagram.com/api/v1/friendships/create/" ++ profile_id ++ "/".

Definition Actions_instagram_follow (username_or_url cookies_instagram : json)
  : M bool :=
  try_except any_exception
    (username <- lift (match username_or_url with
                       | JStr u => Ret (strip_slash
                                          (replace "https://www.instagram.com/" "" u))
                       | _ => Raise EAttributeError
                       end) ;;
     r <- http (Request GET ("https://www.instagram.com/" ++ username) []
                  cookies_instagram (Some 30)) ;;
     match re_search re_profile_page (text r) with
     | None => ret false
     | Some profile_id =>
         csrftoken_match <- lift (match cookies_instagram with
                                  | JStr c => Ret (re_search re_csrftoken c)
                                  | _ => Raise ETypeError
                                  end) ;;
         match csrftoken_match with
         | None => ret false
         | Some csrftoken =>
             rf <- http (Request POST (follow_url profile_id)
                           (follow_data profile_id) cookies_instagram (Some 30)) ;;
             ret (ok rf)
         end
     end)
    (ret false).

(** *** class Bot *)

Record bot : Type := Bot {
  db          : json;   (* self.db *)
  cookies_l4l : json    (* self.cookies_l4l *)
}.

(** [Bot.__init__] *)
Definition Bot_init : M bot :=
  Store_ensure_dir ;;
  d <- Store_load ;;
  c <- lift (py_get d "Cookies_Like4Like" (JStr "")) ;;
  ret (Bot d c).

Definition banner : M unit := rprint MsgBanner.

Definition show_status (username : json) (credits : Z) : M unit :=
  rprint (MsgStatus (fstr username) credits).

Definition menu : M string :=
  rprint MsgMenu ;;
  line <- input ;;
  let choice := strip line in
  ret (match assoc_get choice menu_mapping with Some c => c | None => "" end).

Definition request_l4l_cookies (b : bot) : M bot :=
  banner ;;
  rprint MsgAskL4LCookies ;;
  c <- input ;;
  d <- lift (py_setitem (db b) "Cookies_Like4Like" (JStr c)) ;;
  Store_save d ;;
  ret (Bot d (JStr c)).

Definition ensure_platform_cookies (b : bot) (key prompt_label : string)
  : M (bot * json) :=
  val <- lift (py_get (db b) key (JStr "")) ;;
  if truthy val then ret (b, val)
  else
    rprint (MsgAskPlatformCookies prompt_label) ;;
    v <- input ;;
    d <- lift (py_setitem (db b) key (JStr v)) ;;
    Store_save d ;;
    ret (Bot d (cookies_l4l b), JStr v).

(** The locals of [run] that the [while True] loop reads. *)
Record session : Type := Session {
  s_bot             : bot;
  s_client          : json;     (* the cookie string inside [client] *)
  s_feature         : string;
  s_earn            : string;
  s_vrsta           : string;
  s_platform_cookie : json;
  s_delay           : Z
}.

(** "Determine target URL by feature" *)
Definition target_url (feature : string) (idlink : json) : result string :=
  if String.eqb feature "instagramfol" then
    Ret ("https://www.instagram.com/" ++ fstr idlink)
  else if str_in feature ["twitter"; "twitterfav"; "twitterret"] then
    Ret ("https://x.com/" ++ fstr idlink)
  else if str_in feature ["youtube"; "youtubes"] then
    match idlink with
    | JStr i =>
        if startswith i "watch?v=" then Ret ("https://www.youtube.com/" ++ i)
        else if startswith i "channel/" || startswith i "c/"
             then Ret ("https://www.youtube.com/" ++ i)
             else Ret ("https://www.youtube.com/watch?v=" ++ i)
    | _ => Raise EAttributeError
    end
  else Ret ("https://www.instagram.com/" ++ fstr idlink).

Definition is_KeyError (e : exn) : bool := exn_eqb e EKeyError.

(** The body of [for t in tasks]: [Some c] when the task was validated with
    the new balance [c] (the [break]), [None] on every [continue]. *)
Definition do_task (ss : session) (t : json) : M (option Z) :=
  fields <- try_except is_KeyError
              (idlink <- lift (py_getitem t "idlink") ;;
               taskId <- lift (py_getitem t "taskId") ;;
               code3 <- lift (py_getitem t "code3") ;;
               ret (Some (idlink, taskId, code3)))
              (rprint MsgTaskIncomplete ;; sleep 10 ;; ret None) ;;
  match fields with
  | None => ret None
  | Some (idlink, taskId, code3) =>
      started <- L4L_start_task (s_client ss) idlink taskId (s_feature ss) ;;
      if negb started then
        rprint (MsgStartFailed (fstr idlink)) ;; sleep 10 ;; ret None
      else
        url <- lift (target_url (s_feature ss) idlink) ;;
        ok_redirect <- L4L_check_url (s_client ss) url ;;
        if negb ok_redirect then
          rprint MsgNoRedirect ;; sleep 10 ;; ret None
        else
          success_action <-
            (if String.eqb (s_feature ss) "instagramfol" then
               c <- lift (py_get (db (s_bot ss)) "Cookies_Instagram" (JStr "")) ;;
               Actions_instagram_follow idlink c
             else Actions_open_with_cookies url (s_platform_cookie ss)) ;;
          if negb success_action then
            rprint (MsgActionFailed (fstr idlink)) ;; sleep 10 ;; ret None
          else
            sleep 10 ;;
            credits_str <- L4L_validate (s_client ss) (s_feature ss) (s_vrsta ss)
                             idlink taskId code3 url ;;
            match credits_str with
            | Some cs =>
                if negb (String.eqb cs "") then
                  credits <- lift (match py_int cs with
                                   | Some n => Ret n
                                   | None => Raise EValueError
                                   end) ;;
                  rprint (MsgSuccess (s_feature ss) (s_vrsta ss) url credits) ;;
                  ret (Some credits)
                else
                  rprint (MsgValidateFailed (fstr idlink)) ;; sleep 10 ;; ret None
            | None =>
                rprint (MsgValidateFailed (fstr idlink)) ;; sleep 10 ;; ret None
            end
  end.

(** [for t in tasks: ...]: the loop ends at the first validated task. *)
Fixpoint for_tasks (ss : session) (tasks : list json) : M (option Z) :=
  match tasks with
  | [] => ret None
  | t :: rest =>
      r <- do_task ss t ;;
      match r with
      | Some credits => ret (Some credits)
      | None => for_tasks ss rest
      end
  end.

(** [while total > 0: ...] makes [n] rounds from [total = n]. *)
Fixpoint countdown_from (n : nat) (total : Z) : M unit :=
  match n with
  | O => ret tt
  | S n' =>
      rprint (MsgCountdown (total / 60) (total mod 60)) ;;
      sleep 1 ;;
      countdown_from n' (total - 1)
  end.

Definition countdown (delay : Z) : M unit :=
  countdown_from (Z.to_nat delay) delay.

(** "Delay counter": what follows the [for] loop *)
Definition after_pass (ss : session) (processed_any : bool) : M unit :=
  if processed_any then countdown (s_delay ss)
  else rprint MsgNothingProcessed ;; sleep 10.

(** One round of [while True]; gives the value of [credits] at its end. *)
Definition cycle (ss : session) (credits : Z) : M Z :=
  L4L_warmup (s_client ss) (s_earn ss) ;;
  tasks <- L4L_get_tasks (s_client ss) (s_feature ss) ;;
  if negb (truthy tasks) then
    rprint MsgNoTasks ;; sleep 10 ;; ret credits
  else
    items <- lift (py_iter tasks) ;;
    r <- for_tasks ss items ;;
    match r with
    | Some c => after_pass ss true ;; ret c
    | None => after_pass ss false ;; ret credits
    end.

(** [while True: ...], followed for [fuel] rounds *)
Fixpoint run_loop (fuel : nat) (ss : session) (credits : Z) : M run_end :=
  match fuel with
  | O => ret Running
  | S fuel' =>
      credits' <- cycle ss credits ;;
      run_loop fuel' ss credits'
  end.

(** [int(Console().input(...).strip())], 60 on [ValueError] *)
Definition read_delay : M Z :=
  line <- input ;;
  ret (match py_int (strip line) with Some d => d | None => 60 end).

(** [run] from "username = ..." up to the [while True] loop, once the user
    info is there: the locals the loop reads and the first value of
    [credits]; [None] is the [return] on the menu's exit choice. *)
Definition prepare_session (b : bot) (info : json) : M (option (session * Z)) :=
  username <- (if is_dict info
               then lift (py_get info "username" (JStr "Unknown"))
               else ret (JStr "Unknown")) ;;
  credits <- (if is_dict info
              then c <- lift (py_get info "credits" (JNum 0)) ;; lift (int_of c)
              else ret 0) ;;
  banner ;;
  show_status username credits ;;
  rprint MsgAskDelay ;;
  delay <- read_delay ;;
  choice <- menu ;;
  if String.eqb choice "exit" || String.eqb choice "" then
    rprint MsgExit ;; ret None
  else
    feat <- lift (match assoc_get choice FEATURES with
                  | Some f => Ret f
                  | None => Raise EKeyError
                  end) ;;
    platform_key <- lift (match assoc_get choice PLATFORM_COOKIE_KEYS with
                          | Some k => Ret k
                          | None => Raise EKeyError
                          end) ;;
    let platform_label := replace "_" " " (replace "Cookies_" "" platform_key) in
    bc <- ensure_platform_cookies b platform_key platform_label ;;
    ret (Some (Session (fst bc) (cookies_l4l b) (f_feature feat) (f_earn feat)
                 (f_vrsta feat) (snd bc) delay, credits)).

Definition run_session (fuel : nat) (b : bot) (info : json) : M run_end :=
  r <- prepare_session b info ;;
  match r with
  | None => ret Returned
  | Some (ss, credits) => run_loop fuel ss credits
  end.

(** "Ensure L4L cookies exist/valid": the start of [run].  [None] is the
    [return] after the second failed user-info call. *)
Definition verify_login (b : bot) : M (option (bot * json)) :=
  b1 <- (if negb (truthy (cookies_l4l b)) then request_l4l_cookies b else ret b) ;;
  info <- L4L_get_user_info (cookies_l4l b1) ;;
  if negb (truthy info) then
    rprint MsgCookiesInvalid ;;
    sleep 10 ;;
    b2 <- request_l4l_cookies b1 ;;
    info2 <- L4L_get_user_info (cookies_l4l b2) ;;
    if negb (truthy info2) then
      rprint MsgVerifyFailed ;; ret None
    else ret (Some (b2, info2))
  else ret (Some (b1, info)).

Definition Bot_run (fuel : nat) (b : bot) : M run_end :=
  r <- verify_login b ;;
  match r with
  | None => ret Returned
  | Some (b', info) => run_session fuel b' info
  end.


End Program.

(** ** A scripted runtime

    An instance of [Runtime] to run the program on: the world replays a
    script of HTTP outcomes and console lines, and the library functions
    are executable versions for the JSON, integer and [repr] texts that
    occur in the examples. *)

Module Scripted.

Record script : Type := Script {
  outcomes : list (result response);   (* one per request, in order *)
  lines    : list string;              (* one per console input *)
  clock    : Z
}.

Definition send (_ : request) (w : script) : result response * script :=
  match outcomes w with
  | [] => (Raise ERequest, w)
  | o :: rest => (o, Script rest (lines w) (clock w))
  end.

Definition read_line (w : script) : string * script :=
  match lines w with
  | [] => ("", w)
  | l :: rest => (l, Script (outcomes w) rest (clock w))
  end.

Definition tick (w : script) : Z * script :=
  (clock w, Script (outcomes w) (lines w) (clock w + 1)).

(** *** Reading JSON *)

Definition is_json_ws (c : ascii) : bool :=
  let n := nat_of_ascii c in
  (Nat.eqb n 32 || Nat.eqb n 9 || Nat.eqb n 10 || Nat.eqb n 13)%bool.

Fixpoint skip_ws (s : string) : string :=
  match s with
  | String c s' => if is_json_ws c then skip_ws s' else s
  | EmptyString => EmptyString
  end.

Definition hex_val (c : ascii) : option nat :=
  let n := nat_of_ascii c in
  if (Nat.leb 48 n && Nat.leb n 57)%bool then Some (n - 48)%nat
  else if (Nat.leb 97 n && Nat.leb n 102)%bool then Some (n - 87)%nat
  else if (Nat.leb 65 n && Nat.leb n 70)%bool then Some (n - 55)%nat
  else None.

Inductive str_mode : Type :=
| Plain
| Escaped
| Hex (more acc : nat).

Definition push (c : ascii) (r : option (string * string)) : option (string * string) :=
  match r with
  | Some (body, rest) => Some (String c body, rest)
  | None => None
  end.

(** the text after an opening quote: the decoded string and what follows
    the closing quote *)
Fixpoint str_body (m : str_mode) (s : string) : option (string * string) :=
  match s with
  | EmptyString => None
  | String c s' =>
      let n := nat_of_ascii c in
      match m with
      | Plain =>
          if Nat.eqb n 34 then Some (EmptyString, s')
          else if Nat.eqb n 92 then str_body Escaped s'
          else if Nat.ltb n 32 then None
          else push c (str_body Plain s')
      | Escaped =>
          if (Nat.eqb n 34 || Nat.eqb n 92 || Nat.eqb n 47)%bool
          then push c (str_body Plain s')
          else if Nat.eqb n 98 then push (ascii_of_nat 8) (str_body Plain s')
          else if Nat.eqb n 102 then push (ascii_of_nat 12) (str_body Plain s')
          else if Nat.eqb n 110 then push (ascii_of_nat 10) (str_body Plain s')
          else if Nat.eqb n 114 then push (ascii_of_nat 13) (str_body Plain s')
          else if Nat.eqb n 116 then push (ascii_of_nat 9) (str_body Plain s')
          else if Nat.eqb n 117 then str_body (Hex 3 0) s'
          else None
      | Hex more acc =>
          match hex_val c with
          | None => None
          | Some d =>
              let acc' := (16 * acc + d)%nat in
              match more with
              | O => if Nat.ltb acc' 256
                     then push (ascii_of_nat acc') (str_body Plain s')
                     else None
              | S more' => str_body (Hex more' acc') s'
              end
          end
      end
  end.

Fixpoint digits (acc : Z) (s : string) : Z * string :=
  match s with
  | String c s' =>
      if is_digit c then digits (10 * acc + Z.of_nat (nat_of_ascii c - 48)) s'
      else (acc, s)
  | EmptyString => (acc, s)
  end.

Definition head_is (p : ascii -> bool) (s : string) : bool :=
  match s with String c _ => p c | EmptyString => false end.

Definition is_char (n : nat) (c : ascii) : bool := Nat.eqb (nat_of_ascii c) n.

Fixpoint parse_value (fuel : nat) (s : string) : option (json * string) :=
  match fuel with
  | O => None
  | S fuel' =>
      match skip_ws s with
      | EmptyString => None
      | String c r as t =>
          if is_char 123 c then
            if head_is (is_char 125) (skip_ws r)
            then Some (JDict [], drop 1 (skip_ws r))
            else parse_members fuel' [] r
          else if is_char 91 c then
            if head_is (is_char 93) (skip_ws r)
            then Some (JList [], drop 1 (skip_ws r))
            else parse_elements fuel' [] r
          else if is_char 34 c then
            match str_body Plain r with
            | Some (b, rest) => Some (JStr b, rest)
            | None => None
            end
          else if String.prefix "true" t then Some (JBool true, drop 4 t)
          else if String.prefix "false" t then Some (JBool false, drop 5 t)
          else if String.prefix "null" t then Some (JNull, drop 4 t)
          else if is_char 45 c && head_is is_digit r then
            let (n, rest) := digits 0 r in Some (JNum (- n), rest)
          else if is_digit c then
            let (n, rest) := digits 0 t in Some (JNum n, rest)
          else None
      end
  end
with parse_members (fuel : nat) (acc : list (string * json)) (s : string)
  : option (json * string) :=
  match fuel with
  | O => None
  | S fuel' =>
      match skip_ws s with
      | String c r =>
          if is_char 34 c then
            match str_body Plain r with
            | Some (k, rest) =>
                match skip_ws rest with
                | String c1 r1 =>
                    if is_char 58 c1 then
                      match parse_value fuel' r1 with
                      | Some (v, rest1) =>
                          let acc' := assoc_set k v acc in
                          match skip_ws rest1 with
                          | String c2 r2 =>
                              if is_char 44 c2 then parse_members fuel' acc' r2
                              else if is_char 125 c2 then Some (JDict acc', r2)
                              else None
                          | EmptyString => None
                          end
                      | None => None
                      end
                    else None
                | EmptyString => None
                end
            | None => None
            end
          else None
      | EmptyString => None
      end
  end
with parse_elements (fuel : nat) (acc : list json) (s : string)
  : option (json * string) :=
  match fuel with
  | O => None
  | S fuel' =>
      match parse_value fuel' s with
      | Some (v, rest) =>
          match skip_ws rest with
          | String c r =>
              if is_char 44 c then parse_elements fuel' (acc ++ [v]) r
              else if is_char 93 c then Some (JList (acc ++ [v]), r)
              else None
          | EmptyString => None
          end
      | None => None
      end
  end.

Definition loads (s : string) : result json :=
  match parse_value (S (String.length s)) s with
  | Some (v, rest) =>
      match skip_ws rest with
      | EmptyString => Ret v
      | _ => Raise EValueError
      end
  | None => Raise EValueError
  end.

(** *** Writing JSON, [indent=2] and ASCII only *)

Definition hex_digit (n : nat) : ascii :=
  if Nat.ltb n 10 then ascii_of_nat (48 + n) else ascii_of_nat (87 + n).

Definition escape_char (c : ascii) : string :=
  let n := nat_of_ascii c in
  let bs := String (ascii_of_nat 92) EmptyString in
  if Nat.eqb n 34 then bs ++ dq
  else if Nat.eqb n 92 then bs ++ bs
  else if Nat.eqb n 10 then bs ++ "n"
  else if Nat.eqb n 13 then bs ++ "r"
  else if Nat.eqb n 9 then bs ++ "t"
  else if Nat.eqb n 8 then bs ++ "b"
  else if Nat.eqb n 12 then bs ++ "f"
  else if (Nat.leb 32 n && Nat.leb n 126)%bool then String c EmptyString
  else bs ++ "u00" ++ String (hex_digit (n / 16)) (String (hex_digit (n mod 16)) EmptyString).

Fixpoint escape (s : string) : string :=
  match s with
  | EmptyString => EmptyString
  | String c s' => escape_char c ++ escape s'
  end.

Definition quote (s : string) : string := dq ++ escape s ++ dq.

Fixpoint pad (n : nat) : string :=
  match n with O => EmptyString | S n' => String " "%char (pad n') end.

Definition nl : string := String (ascii_of_nat 10) EmptyString.

Fixpoint join (sep : string) (l : list string) : string :=
  match l with
  | [] => EmptyString
  | [x] => x
  | x :: rest => x ++ sep ++ join sep rest
  end.

Fixpoint dumps_at (ind : nat) (v : json) : string :=
  let inner := (ind + 2)%nat in
  let sep := "," ++ nl ++ pad inner in
  match v with
  | JNull => "null"
  | JBool true => "true"
  | JBool false => "false"
  | JNum n => str_of_int n
  | JStr s => quote s
  | JList [] => "[]"
  | JList l =>
      "[" ++ nl ++ pad inner ++ join sep (map (dumps_at inner) l)
          ++ nl ++ pad ind ++ "]"
  | JDict [] => "{}"
  | JDict d =>
      "{" ++ nl ++ pad inner
          ++ join sep (map (fun kv : string * json => let (k, x) := kv in
                                      quote k ++ ": " ++ dumps_at inner x) d)
          ++ nl ++ pad ind ++ "}"
  end.

Definition dumps (v : json) : string := dumps_at 0 v.

(** *** [int(s)] and [repr] *)

(** digits with single underscores between them *)
Fixpoint int_digits (acc : Z) (after_digit : bool) (s : string) : option Z :=
  match s with
  | EmptyString => if after_digit then Some acc else None
  | String c s' =>
      if is_digit c
      then int_digits (10 * acc + Z.of_nat (nat_of_ascii c - 48)) true s'
      else if is_char 95 c && after_digit && head_is is_digit s'
           then int_digits acc false s'
           else None
  end.

Definition int_of_string (s : string) : option Z :=
  match strip s with
  | String c r as t =>
      if is_char 45 c then option_map Z.opp (int_digits 0 false r)
      else if is_char 43 c then int_digits 0 false r
      else int_digits 0 false t
  | EmptyString => None
  end.

(** [repr], for strings without quotes, backslashes or control characters *)
Fixpoint repr (v : json) : string :=
  match v with
  | JNull => "None"
  | JBool true => "True"
  | JBool false => "False"
  | JNum n => str_of_int n
  | JStr s => "'" ++ s ++ "'"
  | JList l => "[" ++ join ", " (map repr l) ++ "]"
  | JDict d =>
      "{" ++ join ", " (map (fun kv : string * json => let (k, x) := kv in
                                       "'" ++ k ++ "': " ++ repr x) d) ++ "}"
  end.

Definition runtime : Runtime :=
  {| World := script;
     http_send := send;
     console_input := read_line;
     clock_ms := tick;
     json_loads := loads;
     json_dumps := dumps;
     py_int := int_of_string;
     py_repr := repr |}.

(** a state to start from *)
Definition start (w : script) (d : fs) : @state runtime := @State runtime w d [].

End Scripted.

(** ** Example inputs *)

Module Examples.

Import Scripted.

(** a world that answers nothing: every request fails in transport *)
Definition silent : script := Script [] [] 0.

(** a stored mapping with the rewards-site cookie, and its file text *)
Definition stored : list (string * string) :=
  [("Cookies_Like4Like", "PHPSESSID=abc123")].

Definition stored_text : string :=
  Eval vm_compute in dumps (JDict [("Cookies_Like4Like", JStr "PHPSESSID=abc123")]).

(** the directory Penyimpanan is missing and cannot be created (a regular
    file of that name is in the way) *)
Definition blocked : @state runtime := start silent (NoDir false).

(** the directory is there with a readable cookies file *)
Definition populated : @state runtime :=
  start silent (HasDir (Regular stored_text) true).

(** a first run: no directory yet *)
Definition fresh : @state runtime := start silent (NoDir true).

(** a text between double quotes *)
Definition q (s : string) : string := dq ++ s ++ dq.

(** [{"success":true,"credits":"125"}] *)
Definition success_body : string :=
  Eval vm_compute in
    "{" ++ q "success" ++ ":true," ++ q "credits" ++ ":" ++ q "125" ++ "}".

(** [{"success":true}] *)
Definition started_body : string :=
  Eval vm_compute in "{" ++ q "success" ++ ":true}".

(** a listing with the one task of the subscribe scenario *)
Definition listing_body : string :=
  Eval vm_compute in
    "{" ++ q "success" ++ ":true," ++ q "data" ++ ":{" ++ q "tasks" ++ ":[{"
        ++ q "idlink" ++ ":" ++ q "chan1" ++ "," ++ q "taskId" ++ ":" ++ q "t1"
        ++ "," ++ q "code3" ++ ":" ++ q "c1" ++ "}]}}".

Definition task1 : json :=
  JDict [("idlink", JStr "chan1"); ("taskId", JStr "t1"); ("code3", JStr "c1")].


Definition l4l_cookie : json := JStr "PHPSESSID=abc123".

Definition the_bot : bot :=
  Bot (JDict [("Cookies_Like4Like", l4l_cookie);
              ("Cookies_Youtube", JStr "SID=yt1")])
      l4l_cookie.

(** the subscribe feature, with a delay of 3 seconds *)
Definition subscribe : session :=
  Session the_bot l4l_cookie "youtubes" "/user/earn-youtube-subscribe.php"
    "subscribe" (JStr "SID=yt1") 3.

Definition at_home (outs : list (result response)) (ins : list string)
  : @state runtime :=
  start (Script outs ins 1700000000000) (HasDir (Regular stored_text) true).

(** the transport fails on the first request *)
Definition offline : @state runtime := at_home [Raise ERequest] [].

(** the validation endpoint answers with a server error whose body has
    the success marker and the credits field *)
Definition server_error : @state runtime :=
  at_home [Ret (Response 500 success_body)] [].

(** the validation endpoint answers OK without the success marker *)
Definition denied : @state runtime :=
  at_home [Ret (Response 200 "denied")] [].

(** the start endpoint answers with a server error and the success marker *)
Definition started_with_error : @state runtime :=
  at_home [Ret (Response 503 started_body)] [].

(** a profile page with an identifier, and the follow accepted *)
Definition profile_text : string :=
  Eval vm_compute in "<script>{" ++ q "profilePage_4242" ++ ":1}</script>".

Definition profile_page : response := Response 200 profile_text.

Definition instagram_cookie : string := "csrftoken=tok123; sessionid=77;".

Definition follow_accepted : @state runtime :=
  at_home [Ret profile_page; Ret (Response 200 "{}")] [].

(** the task is started, checked, done and validated with 125 credits *)
Definition full_pass : @state runtime :=
  at_home [Ret (Response 200 started_body);
           Ret (Response 200 "https://www.youtube.com/watch?v=chan1");
           Ret (Response 200 "<html>");
           Ret (Response 200 success_body)] [].

(** a round in which the one listed task cannot be started *)
Definition idle_round : @state runtime :=
  at_home [Ret (Response 200 "");
           Ret (Response 200 listing_body);
           Ret (Response 200 "busy")] [].

(** both user-info calls are refused; the user types new cookies once *)
Definition refused_twice : @state runtime :=
  at_home [Ret (Response 403 "forbidden"); Ret (Response 403 "forbidden")]
          ["PHPSESSID=new456"].

End Examples.

(** ** Vocabulary of the statements *)

(** every character of [s] is in the class [p] *)
Fixpoint all_chars (p : ascii -> bool) (s : string) : bool :=
  match s with
  | EmptyString => true
  | String c s' => p c && all_chars p s'
  end.

(** [hay] has [needle] as a substring *)
Definition substring_of (needle hay : string) : Prop :=
  exists u v, hay = u ++ needle ++ v.

(** [s] has a match of the pattern: the opening literal, a non-empty group
    of class characters, the closing literal *)
Definition occurs (p : pattern) (s : string) : Prop :=
  exists u g v,
    s = u ++ p_pre p ++ g ++ p_post p ++ v
    /\ g <> EmptyString /\ all_chars (p_cls p) g = true.

(** the events that are requests to the URL [u] *)
Definition is_request_to (u : string) (e : event) : bool :=
  match e with
  | EvRequest r => String.eqb (r_url r) u
  | _ => false
  end.

Definition is_post (e : event) : bool :=
  match e with
  | EvRequest r => match r_method r with POST => true | GET => false end
  | _ => false
  end.

Definition is_success (e : event) : bool :=
  match e with
  | EvPrint (MsgSuccess _ _ _ _) => true
  | _ => false
  end.

Definition is_input (e : event) : bool :=
  match e with EvInput => true | _ => false end.

Definition count (p : event -> bool) (l : list event) : nat :=
  List.length (filter p l).

(** ** Strings and patterns *)

Section Strings.

Lemma append_nil_r (s : string) : s ++ "" = s.
Proof. induction s as [|c s IH]; simpl; [reflexivity | now rewrite IH]. Qed.

Lemma append_assoc (a b c : string) : (a ++ b) ++ c = a ++ b ++ c.
Proof. induction a as [|x a IH]; simpl; [reflexivity | now rewrite IH]. Qed.

Lemma length_append (a b : string) :
  String.length (a ++ b) = (String.length a + String.length b)%nat.
Proof. induction a as [|x a IH]; simpl; [reflexivity | now rewrite IH]. Qed.

Lemma prefix_append (p r : string) : String.prefix p (p ++ r) = true.
Proof.
  induction p as [|c p IH]; simpl.
  - now destruct r.
  - destruct (ascii_dec c c) as [_|N]; [exact IH | now elim N].
Qed.

Lemma prefix_split (p s : string) :
  String.prefix p s = true -> exists r, s = p ++ r.
Proof.
  revert s; induction p as [|c p IH]; intros s H.
  - now exists s.
  - destruct s as [|d s]; simpl in H; [discriminate|].
    destruct (ascii_dec c d) as [->|]; [|discriminate].
    destruct (IH _ H) as [r ->]. now exists r.
Qed.

Lemma prefix_iff (p s : string) :
  String.prefix p s = true <-> exists r, s = p ++ r.
Proof.
  split; [apply prefix_split | intros [r ->]; apply prefix_append].
Qed.

Lemma drop_append (p r : string) : drop (String.length p) (p ++ r) = r.
Proof. induction p as [|c p IH]; simpl; [now destruct r | exact IH]. Qed.

Lemma take_drop (n : nat) (s : string) : take n s ++ drop n s = s.
Proof.
  revert s; induction n as [|n IH]; intros [|c s]; simpl; try reflexivity.
  now rewrite IH.
Qed.

Lemma take_append (g r : string) : take (String.length g) (g ++ r) = g.
Proof. induction g as [|c g IH]; simpl; [now destruct r | now rewrite IH]. Qed.

Lemma contains_iff (needle hay : string) :
  contains needle hay = true <-> substring_of needle hay.
Proof.
  unfold substring_of. split.
  - induction hay as [|c hay IH]; cbn [contains].
    + destruct (String.prefix needle "") eqn:P; [|discriminate].
      intros _. apply prefix_split in P as [r E]. now exists "", r.
    + destruct (String.prefix needle (String c hay)) eqn:P.
      * intros _. apply prefix_split in P as [r E]. now exists "", r.
      * intros H. destruct (IH H) as (u & v & ->). now exists (String c u), v.
  - intros (u & v & ->). induction u as [|c u IH].
    + cbn [append]. destruct (needle ++ v) eqn:E; cbn [contains];
        rewrite <- E, prefix_append; reflexivity.
    + cbn [append contains].
      destruct (String.prefix needle (String c (u ++ needle ++ v)));
        [reflexivity | exact IH].
Qed.

Lemma all_chars_span (cls : ascii -> bool) (g r : string) :
  all_chars cls g = true -> (String.length g <= span cls (g ++ r))%nat.
Proof.
  induction g as [|c g IH]; simpl; intros H; [lia|].
  apply andb_true_iff in H as [Hc Hg]. rewrite Hc. specialize (IH Hg). lia.
Qed.

Lemma span_all_chars (cls : ascii -> bool) (n : nat) (s : string) :
  (n <= span cls s)%nat -> all_chars cls (take n s) = true.
Proof.
  revert s; induction n as [|n IH]; intros [|c s]; simpl; intros H;
    try reflexivity; try lia.
  destruct (cls c); simpl in *; [apply IH; lia | lia].
Qed.

Lemma span_length (cls : ascii -> bool) (s : string) :
  (span cls s <= String.length s)%nat.
Proof. induction s as [|c s IH]; simpl; [lia | destruct (cls c); lia]. Qed.

Lemma take_nonempty (n : nat) (s : string) :
  (1 <= n <= String.length s)%nat -> take n s <> "".
Proof. destruct n, s; simpl; intros H; try lia; discriminate. Qed.

Lemma backtrack_sound (post rest : string) (k : nat) (g : string) :
  backtrack post rest k = Some g ->
  exists n, (1 <= n <= k)%nat /\ g = take n rest
            /\ String.prefix post (drop n rest) = true.
Proof.
  induction k as [|k IH]; cbn [backtrack]; [discriminate|].
  destruct (String.prefix post (drop (S k) rest)) eqn:P.
  - intros [= E]. subst g. exists (S k). repeat split; try lia. exact P.
  - intros H. destruct (IH H) as (n & Hn & E & Q).
    exists n. repeat split; try lia; assumption.
Qed.

Lemma backtrack_complete (post rest : string) (n k : nat) :
  (1 <= n <= k)%nat -> String.prefix post (drop n rest) = true ->
  backtrack post rest k <> None.
Proof.
  induction k as [|k IH]; intros Hn P; [lia|].
  cbn [backtrack].
  destruct (String.prefix post (drop (S k) rest)) eqn:Q; [discriminate|].
  apply IH; [|exact P].
  assert (n <> S k) by (intros ->; congruence). lia.
Qed.

Lemma match_here_sound (p : pattern) (s g : string) :
  match_here p s = Some g ->
  exists v, s = p_pre p ++ g ++ p_post p ++ v
            /\ g <> "" /\ all_chars (p_cls p) g = true.
Proof.
  unfold match_here.
  destruct (String.prefix (p_pre p) s) eqn:P; [|discriminate].
  apply prefix_split in P as [rest ->]. rewrite drop_append.
  intros H. apply backtrack_sound in H as (n & Hn & -> & Q).
  apply prefix_split in Q as [v Q]. exists v.
  pose proof (span_length (p_cls p) rest) as L.
  repeat split.
  - rewrite <- Q, take_drop. reflexivity.
  - apply take_nonempty. lia.
  - apply span_all_chars. lia.
Qed.

Lemma match_here_complete (p : pattern) (g v : string) :
  g <> "" -> all_chars (p_cls p) g = true ->
  match_here p (p_pre p ++ g ++ p_post p ++ v) <> None.
Proof.
  intros Hg Hc. unfold match_here.
  rewrite prefix_append, drop_append.
  apply backtrack_complete with (n := String.length g).
  - split; [destruct g; simpl; [congruence | lia] | now apply all_chars_span].
  - rewrite drop_append. apply prefix_append.
Qed.

(** What [re_search] finds is a match of the pattern in the text. *)
Lemma re_search_sound (p : pattern) (s g : string) :
  re_search p s = Some g ->
  g <> "" /\ all_chars (p_cls p) g = true
  /\ exists u v, s = u ++ p_pre p ++ g ++ p_post p ++ v.
Proof.
  induction s as [|c s IH]; simpl.
  - destruct (match_here p "") eqn:E; [|discriminate].
    intros [= ->]. apply match_here_sound in E as (v & E & Hg & Hc).
    repeat split; try assumption. now exists "", v.
  - destruct (match_here p (String c s)) eqn:E.
    + intros [= ->]. apply match_here_sound in E as (v & E & Hg & Hc).
      repeat split; try assumption. now exists "", v.
    + intros H. destruct (IH H) as (Hg & Hc & u & v & ->).
      repeat split; try assumption. now exists (String c u), v.
Qed.

(** [re_search] finds nothing exactly when the text has no match. *)
Lemma re_search_none_iff (p : pattern) (s : string) :
  re_search p s = None <-> ~ occurs p s.
Proof.
  split.
  - intros H (u & g & v & -> & Hg & Hc). revert H.
    induction u as [|c u IH].
    + pose proof (match_here_complete p g v Hg Hc) as M.
      destruct (p_pre p ++ g ++ p_post p ++ v) eqn:E; simpl in *;
        rewrite <- ?E in *;
        destruct (match_here p _); congruence.
    + simpl. destruct (match_here p _); [discriminate | exact IH].
  - intros N. destruct (re_search p s) as [g|] eqn:E; [|reflexivity].
    exfalso. apply N. apply re_search_sound in E as (Hg & Hc & u & v & ->).
    now exists u, g, v.
Qed.

Lemma re_search_some_iff (p : pattern) (s : string) :
  (exists g, re_search p s = Some g) <-> occurs p s.
Proof.
  split.
  - intros [g E]. apply re_search_sound in E as (Hg & Hc & u & v & ->).
    now exists u, g, v.
  - intros O. destruct (re_search p s) as [g|] eqn:E; [now exists g|].
    now apply re_search_none_iff in E.
Qed.

End Strings.

(** ** Properties of the program *)

Section Properties.

Context {RT : Runtime}.

Notation "x <- m ;; k" := (bind m (fun x => k))
  (at level 100, m at next level, right associativity).
Notation "m ;; k" := (bind m (fun _ => k))
  (at level 100, right associativity).

(** *** The credential store *)

(** the state of Penyimpanan/Cookies.json in a storage state *)
Definition cookies_file (d : fs) : file_state :=
  match d with
  | HasDir f _ => f
  | NoDir _ => Missing
  end.

(** a dict of strings as a decoded value *)
Definition str_dict (m : list (string * string)) : json :=
  JDict (map (fun kv => (fst kv, JStr (snd kv))) m).

Lemma Store_ensure_dir_ok (s : state) :
  disk s <> NoDir false ->
  exists d', Store_ensure_dir s = (Ret tt, State (world s) d' (log s))
             /\ cookies_file d' = cookies_file (disk s)
             /\ (exists f w, d' = HasDir f w).
Proof.
  destruct s as [w d l]. unfold Store_ensure_dir, bind, isdir, makedirs, ret.
  simpl. destruct d as [[|]|f wr]; simpl; intros H.
  - exists (HasDir Missing true). repeat split. now exists Missing, true.
  - congruence.
  - exists (HasDir f wr). repeat split. now exists f, wr.
Qed.

(** C1, as the code has it: when the storage directory exists or can be
    created, [Store.load()] does not raise; it returns the decoded content
    of the cookies file when the file opens and its text parses as JSON,
    and the empty mapping when the file is missing, cannot be read, or does
    not parse. *)
Theorem Store_load_returns (s : state) :
  disk s <> NoDir false ->
  fst (Store_load s)
  = Ret (match cookies_file (disk s) with
         | Regular c =>
             match json_loads c with
             | Ret v => v
             | Raise _ => JDict []
             end
         | Missing | Broken => JDict []
         end).
Proof.
  intros H. unfold Store_load, bind.
  destruct (Store_ensure_dir_ok s H) as (d' & -> & Hf & f & wr & ->).
  simpl in Hf. rewrite <- Hf.
  unfold path_exists, try_except, try_except_as, read_file, lift, ret, bind.
  simpl. destruct f as [|c|]; simpl; try reflexivity.
  destruct (json_loads c); reflexivity.
Qed.

(** [Store.load()] leaves the outside world and the log as they are. *)
Lemma Store_load_frame (s : state) :
  world (snd (Store_load s)) = world s /\ log (snd (Store_load s)) = log s.
Proof.
  destruct s as [w d l].
  unfold Store_load, Store_ensure_dir, bind, isdir, makedirs, path_exists,
    try_except, try_except_as, read_file, lift, ret.
  simpl. destruct d as [[|]|[|c|] wr]; simpl; auto.
  destruct (json_loads c); simpl; auto.
Qed.

(** After [Store.save(data)] has returned, [Store.load()] gives what the
    JSON library reads from the text it wrote for [data]. *)
Lemma Store_save_then_load (data : json) (s : state) :
  fst (Store_save data s) = Ret tt ->
  fst ((Store_save data ;; Store_load) s)
  = Ret (match json_loads (json_dumps data) with
         | Ret v => v
         | Raise _ => JDict []
         end).
Proof.
  destruct s as [w d l]. intros Hs.
  unfold Store_save, Store_load, Store_ensure_dir, bind, isdir, makedirs,
    path_exists, write_file, try_except, try_except_as, read_file, lift, ret
    in *.
  simpl in *.
  destruct d as [[|]|f [|]]; simpl in *; try discriminate;
    destruct (json_loads (json_dumps data)); reflexivity.
Qed.

(** C2: when [Store.save(m)] returns and the JSON library reads back what
    it writes for [m], a following [Store.load()] returns [m]. *)
Theorem Store_save_load (m : list (string * string)) (s : state) :
  fst (Store_save (str_dict m) s) = Ret tt ->
  json_loads (json_dumps (str_dict m)) = Ret (str_dict m) ->
  fst ((Store_save (str_dict m) ;; Store_load) s) = Ret (str_dict m).
Proof.
  intros Hs Hj. rewrite Store_save_then_load by exact Hs. now rewrite Hj.
Qed.

(** *** Target URLs *)

(** the target URL for a menu choice and a string identifier *)
Definition url_for (choice idlink : string) : result string :=
  match assoc_get choice FEATURES with
  | Some f => target_url (f_feature f) (JStr idlink)
  | None => Raise EKeyError
  end.

(** the identifier already is a path under the YouTube host *)
Definition youtube_path (idlink : string) : Prop :=
  (exists r, idlink = "watch?v=" ++ r)
  \/ (exists r, idlink = "channel/" ++ r)
  \/ (exists r, idlink = "c/" ++ r).

Lemma youtube_path_iff (i : string) :
  youtube_path i
  <-> (startswith i "watch?v=" || startswith i "channel/" || startswith i "c/")
      = true.
Proof.
  unfold youtube_path, startswith.
  rewrite !orb_true_iff, !prefix_iff. tauto.
Qed.

Lemma youtube_url (feature i : string) :
  feature = "youtube" \/ feature = "youtubes" ->
  target_url feature (JStr i)
  = Ret (if startswith i "watch?v=" || startswith i "channel/" || startswith i "c/"
         then "https://www.youtube.com/" ++ i
         else "https://www.youtube.com/watch?v=" ++ i).
Proof.
  intros [-> | ->]; unfold target_url; cbn -[startswith append];
    destruct (startswith i "watch?v="); cbn -[startswith append];
    try reflexivity;
    destruct (startswith i "channel/" || startswith i "c/"); reflexivity.
Qed.

(** C3: the target URL of each of the six task types. *)
Theorem target_url_templates (idlink : string) :
  url_for "ig_follow" idlink = Ret ("https://www.instagram.com/" ++ idlink)
  /\ url_for "tw_follow" idlink = Ret ("https://x.com/" ++ idlink)
  /\ url_for "tw_like" idlink = Ret ("https://x.com/" ++ idlink)
  /\ url_for "tw_retweet" idlink = Ret ("https://x.com/" ++ idlink)
  /\ (forall choice, choice = "yt_like" \/ choice = "yt_subscribe" ->
        (youtube_path idlink ->
           url_for choice idlink = Ret ("https://www.youtube.com/" ++ idlink))
        /\ (~ youtube_path idlink ->
              url_for choice idlink
              = Ret ("https://www.youtube.com/watch?v=" ++ idlink))).
Proof.
  repeat split; try reflexivity.
  - intros Y. apply youtube_path_iff in Y.
    destruct H as [-> | ->]; unfold url_for; cbn [assoc_get FEATURES String.eqb];
      cbn -[target_url append startswith];
      rewrite youtube_url by auto; now rewrite Y.
  - intros Y. rewrite youtube_path_iff in Y. apply not_true_is_false in Y.
    destruct H as [-> | ->]; unfold url_for;
      cbn -[target_url append startswith];
      rewrite youtube_url by auto; now rewrite Y.
Qed.

(** *** The rewards-site client *)

(** the requests of the client, by operation *)
Definition warmup_request (c : json) (earn : string) : request :=
  Request GET (BASE ++ earn) [] c None.

Definition user_info_request (c : json) : request :=
  Request GET (BASE ++ "/api/get-user-info.php") [] c (Some 30).

Definition get_tasks_request (c : json) (feature : string) : request :=
  Request GET (BASE ++ "/api/get-tasks.php?feature=" ++ feature) [] c (Some 30).

Definition start_task_request (c idlink taskId : json) (feature : string) (t : Z)
  : request :=
  Request GET (start_task_url idlink taskId feature (str_of_int t)) [] c (Some 30).

Definition check_url_request (c : json) (url : string) : request :=
  Request POST (BASE ++ "/checkurl.php") [("url", JStr url)] c (Some 30).

Definition validate_request (c : json) (feature vrsta : string)
    (idlinka idzad idclana : json) (url : string) : request :=
  Request POST (BASE ++ "/api/validate-task.php")
    (validate_data feature vrsta idlinka idzad idclana url) c (Some 30).

(** the state after one exchange *)
Definition sent (r : request) (s : state) : state :=
  State (snd (http_send r (world s))) (disk s) (log s ++ [EvRequest r]).

(** what the world answers to [r] in state [s] *)
Definition answer (r : request) (s : state) : result response :=
  fst (http_send r (world s)).

Lemma http_run (r : request) (s : state) : http r s = (answer r s, sent r s).
Proof.
  unfold http, answer, sent. now destruct (http_send r (world s)).
Qed.

(** the state after reading the clock *)
Definition clocked (s : state) : state :=
  State (snd (clock_ms (world s))) (disk s) (log s).

Lemma now_ms_run (s : state) : now_ms s = (Ret (fst (clock_ms (world s))), clocked s).
Proof. unfold now_ms, clocked. now destruct (clock_ms (world s)). Qed.

Lemma L4L_warmup_run (c : json) (earn : string) (s : state) :
  L4L_warmup c earn s
  = (match answer (warmup_request c earn) s with
     | Ret _ => Ret tt
     | Raise e => Raise e
     end, sent (warmup_request c earn) s).
Proof.
  unfold L4L_warmup, warmup_request, bind, ret. rewrite http_run.
  now destruct (answer _ s).
Qed.

(** what [get_user_info] makes of an answer *)
Definition user_info_of (o : result response) : json :=
  match o with
  | Ret resp =>
      if ok resp && contains "success" (text resp) then
        match json_loads (text resp) with
        | Ret j => match py_get j "data" JNull with Ret d => d | Raise _ => JNull end
        | Raise _ => JNull
        end
      else JNull
  | Raise _ => JNull
  end.

Lemma L4L_get_user_info_run (c : json) (s : state) :
  L4L_get_user_info c s
  = (Ret (user_info_of (answer (user_info_request c) s)),
     sent (user_info_request c) s).
Proof.
  unfold L4L_get_user_info, user_info_request, user_info_of.
  unfold try_except, try_except_as, bind, lift, ret. rewrite http_run.
  destruct (answer _ s) as [resp|e]; cbn [any_exception]; [|reflexivity].
  destruct (ok resp && contains "success" (text resp)); [|reflexivity].
  destruct (json_loads (text resp)) as [j|e]; [|reflexivity].
  destruct (py_get j "data" JNull); reflexivity.
Qed.

(** what [get_tasks] makes of an answer *)
Definition tasks_of (o : result response) : json :=
  match o with
  | Ret resp =>
      if ok resp && contains "success" (text resp) then
        match json_loads (text resp) with
        | Ret j =>
            match py_get j "data" (JDict []) with
            | Ret d =>
                match py_get d "tasks" (JList []) with
                | Ret t => t
                | Raise _ => JNull
                end
            | Raise _ => JNull
            end
        | Raise _ => JNull
        end
      else JNull
  | Raise _ => JNull
  end.

Lemma L4L_get_tasks_run (c : json) (feature : string) (s : state) :
  L4L_get_tasks c feature s
  = (Ret (tasks_of (answer (get_tasks_request c feature) s)),
     sent (get_tasks_request c feature) s).
Proof.
  unfold L4L_get_tasks, get_tasks_request, tasks_of.
  unfold try_except, try_except_as, bind, lift, ret. rewrite http_run.
  destruct (answer _ s) as [resp|e]; cbn [any_exception]; [|reflexivity].
  destruct (ok resp && contains "success" (text resp)); [|reflexivity].
  destruct (json_loads (text resp)) as [j|e]; [|reflexivity].
  destruct (py_get j "data" (JDict [])) as [d|e]; [|reflexivity].
  destruct (py_get d "tasks" (JList [])); reflexivity.
Qed.

Definition started_of (o : result response) : bool :=
  match o with
  | Ret resp => contains success_marker (text resp)
  | Raise _ => false
  end.

Lemma L4L_start_task_run (c idlink taskId : json) (feature : string) (s : state) :
  let req := start_task_request c idlink taskId feature (fst (clock_ms (world s))) in
  L4L_start_task c idlink taskId feature s
  = (Ret (started_of (answer req (clocked s))), sent req (clocked s)).
Proof.
  unfold L4L_start_task, start_task_request, started_of.
  unfold try_except, try_except_as, bind, ret. rewrite now_ms_run, http_run.
  destruct (answer _ (clocked s)) as [resp|e]; cbn [any_exception]; [|reflexivity].
  destruct (contains success_marker (text resp)); reflexivity.
Qed.

Definition checked_of (o : result response) : bool :=
  match o with
  | Ret resp => ok resp && contains "http" (text resp)
  | Raise _ => false
  end.

Lemma L4L_check_url_run (c : json) (url : string) (s : state) :
  L4L_check_url c url s
  = (Ret (checked_of (answer (check_url_request c url) s)),
     sent (check_url_request c url) s).
Proof.
  unfold L4L_check_url, check_url_request, checked_of.
  unfold try_except, try_except_as, bind, ret. rewrite http_run.
  destruct (answer _ s) as [resp|e]; reflexivity.
Qed.

Definition validated_of (o : result response) : option string :=
  match o with
  | Ret resp =>
      if ok resp && contains success_marker (text resp)
         && contains credits_key (text resp)
      then re_search re_credits (text resp)
      else None
  | Raise _ => None
  end.

Lemma L4L_validate_run (c : json) (feature vrsta : string)
    (idlinka idzad idclana : json) (url : string) (s : state) :
  let req := validate_request c feature vrsta idlinka idzad idclana url in
  L4L_validate c feature vrsta idlinka idzad idclana url s
  = (Ret (validated_of (answer req s)), sent req s).
Proof.
  unfold L4L_validate, validate_request, validated_of.
  unfold try_except, try_except_as, bind, ret. rewrite http_run.
  destruct (answer _ s) as [resp|e]; cbn [any_exception]; [|reflexivity].
  destruct (ok resp && contains success_marker (text resp)
            && contains credits_key (text resp)); reflexivity.
Qed.

(** X23: the five guarded operations send their one request with a
    30-second timeout and return whatever the transport does. *)
Lemma guarded_operations (c idlink taskId code3 : json)
    (feature vrsta url : string) (s : state) :
  (exists v, L4L_get_user_info c s = (Ret v, sent (user_info_request c) s))
  /\ (exists v, L4L_get_tasks c feature s
                = (Ret v, sent (get_tasks_request c feature) s))
  /\ (exists v t, L4L_start_task c idlink taskId feature s
                  = (Ret v, sent (start_task_request c idlink taskId feature t)
                              (clocked s)))
  /\ (exists v, L4L_check_url c url s = (Ret v, sent (check_url_request c url) s))
  /\ (exists v, L4L_validate c feature vrsta idlink taskId code3 url s
                = (Ret v, sent (validate_request c feature vrsta idlink taskId
                                  code3 url) s))
  /\ r_timeout (user_info_request c) = Some 30
  /\ r_timeout (get_tasks_request c feature) = Some 30
  /\ (forall t, r_timeout (start_task_request c idlink taskId feature t) = Some 30)
  /\ r_timeout (check_url_request c url) = Some 30
  /\ r_timeout (validate_request c feature vrsta idlink taskId code3 url) = Some 30.
Proof.
  rewrite L4L_get_user_info_run, L4L_get_tasks_run, L4L_start_task_run,
    L4L_check_url_run, L4L_validate_run.
  repeat split; eauto.
Qed.

(** C10: [start_task] does not raise; it returns true exactly when the
    request completes with a body that has the literal ["success":true] in
    it, whatever the status code of the response. *)
Theorem L4L_start_task_true_iff (c idlink taskId : json) (feature : string)
    (s : state) :
  let req := start_task_request c idlink taskId feature (fst (clock_ms (world s))) in
  (exists b, fst (L4L_start_task c idlink taskId feature s) = Ret b)
  /\ (fst (L4L_start_task c idlink taskId feature s) = Ret true
      <-> exists code body,
            answer req (clocked s) = Ret (Response code body)
            /\ substring_of success_marker body).
Proof.
  intros req. rewrite L4L_start_task_run. fold req. cbn [fst].
  split; [eauto|]. unfold started_of. split.
  - destruct (answer req (clocked s)) as [[code body]|e]; intros [= H].
    exists code, body. split; [reflexivity | now apply contains_iff].
  - intros (code & body & -> & H). apply contains_iff in H.
    cbn [text]. now rewrite H.
Qed.

(** the group [re_search] returns stands in the text between the literals
    of the pattern *)
Lemma re_search_group (p : pattern) (s g : string) :
  re_search p s = Some g ->
  g <> "" /\ all_chars (p_cls p) g = true
  /\ substring_of (p_pre p ++ g ++ p_post p) s.
Proof.
  intros H. apply re_search_sound in H as (Hg & Hc & u & v & ->).
  repeat split; try assumption. exists u, v. now rewrite !append_assoc.
Qed.

(** C5, as the code has it: [check_url] and [validate] do not raise.
    [check_url] returns true exactly when the response is HTTP-OK and its
    body has the substring [http].  [validate] returns a balance exactly
    when the response is HTTP-OK, its body has the literal ["success":true]
    and the literal ["credits"], and the pattern ["credits":"<digits>"]
    matches; the balance is the digits of the leftmost match.  It returns
    nothing when the body lacks the success marker. *)
Theorem check_url_validate_results (c idlink taskId code3 : json)
    (feature vrsta url : string) (s : state) :
  let rc := check_url_request c url in
  let rv := validate_request c feature vrsta idlink taskId code3 url in
  let validate := L4L_validate c feature vrsta idlink taskId code3 url in
  (exists b, fst (L4L_check_url c url s) = Ret b)
  /\ (fst (L4L_check_url c url s) = Ret true
      <-> exists resp, answer rc s = Ret resp /\ ok resp = true
                       /\ substring_of "http" (text resp))
  /\ (exists r, fst (validate s) = Ret r)
  /\ (forall g, fst (validate s) = Ret (Some g)
                <-> exists resp, answer rv s = Ret resp /\ ok resp = true
                      /\ substring_of success_marker (text resp)
                      /\ substring_of credits_key (text resp)
                      /\ re_search re_credits (text resp) = Some g)
  /\ (forall g, fst (validate s) = Ret (Some g) ->
        g <> "" /\ all_chars is_digit g = true
        /\ exists resp, answer rv s = Ret resp
             /\ substring_of (credits_key ++ ":" ++ dq ++ g ++ dq) (text resp))
  /\ (forall resp, answer rv s = Ret resp ->
        ~ substring_of success_marker (text resp) ->
        fst (validate s) = Ret None).
Proof.
  intros rc rv validate. unfold validate.
  rewrite L4L_check_url_run, L4L_validate_run. fold rc rv. cbn [fst].
  assert (V : forall g, Ret (validated_of (answer rv s)) = Ret (Some g)
                <-> exists resp, answer rv s = Ret resp /\ ok resp = true
                      /\ substring_of success_marker (text resp)
                      /\ substring_of credits_key (text resp)
                      /\ re_search re_credits (text resp) = Some g).
  { intros g. unfold validated_of. split.
    - destruct (answer rv s) as [resp|e]; [|discriminate].
      destruct (ok resp) eqn:O; [|discriminate].
      destruct (contains success_marker (text resp)) eqn:S1; [|discriminate].
      destruct (contains credits_key (text resp)) eqn:S2; [|discriminate].
      cbn [andb]. intros [= H]. exists resp.
      repeat split; try apply contains_iff; assumption.
    - intros (resp & -> & O & S1 & S2 & H).
      apply contains_iff in S1, S2. now rewrite O, S1, S2, H. }
  repeat split; eauto.
  - unfold checked_of. destruct (answer rc s) as [resp|e]; intros [= H].
    apply andb_true_iff in H as [O H]. exists resp.
    repeat split; [assumption | now apply contains_iff].
  - intros (resp & -> & O & H). apply contains_iff in H.
    unfold checked_of. now rewrite O, H.
  - apply V.
  - apply V.
  - apply V in H as (resp & _ & _ & _ & _ & H). now apply re_search_group in H.
  - apply V in H as (resp & _ & _ & _ & _ & H). now apply re_search_group in H.
  - apply V in H as (resp & E & _ & _ & _ & H). exists resp. split; [exact E|].
    now apply re_search_group in H.
  - intros resp E N. rewrite E. unfold validated_of.
    destruct (contains success_marker (text resp)) eqn:S1.
    + apply contains_iff in S1. contradiction.
    + now rewrite andb_false_r.
Qed.

(** *** The Instagram follow action *)

Definition profile_request (username_or_url cookies : string) : request :=
  Request GET
    ("https://www.instagram.com/"
       ++ strip_slash (replace "https://www.instagram.com/" "" username_or_url))
    [] (JStr cookies) (Some 30).

Definition follow_request (profile_id cookies : string) : request :=
  Request POST (follow_url profile_id) (follow_data profile_id) (JStr cookies)
    (Some 30).

Definition followed_of (o : result response) : bool :=
  match o with
  | Ret rf => ok rf
  | Raise _ => false
  end.

Lemma Actions_instagram_follow_run (u c : string) (s : state) :
  let s1 := sent (profile_request u c) s in
  Actions_instagram_follow (JStr u) (JStr c) s
  = match answer (profile_request u c) s with
    | Raise _ => (Ret false, s1)
    | Ret page =>
        match re_search re_profile_page (text page), re_search re_csrftoken c with
        | Some pid, Some _ =>
            (Ret (followed_of (answer (follow_request pid c) s1)),
             sent (follow_request pid c) s1)
        | _, _ => (Ret false, s1)
        end
    end.
Proof.
  intros s1. unfold Actions_instagram_follow, s1, profile_request, follow_request.
  unfold try_except, try_except_as, bind, lift, ret. rewrite http_run.
  destruct (answer _ s) as [page|e]; cbn [any_exception]; [|reflexivity].
  destruct (re_search re_profile_page (text page)) as [pid|]; [|reflexivity].
  destruct (re_search re_csrftoken c) as [tok|]; [|reflexivity].
  rewrite http_run. unfold followed_of.
  destruct (answer _ _) as [rf|e]; reflexivity.
Qed.

(** C6: once the profile page is fetched, the follow action returns false
    after that one request when the page has no ["profilePage_<digits>"]
    or the cookie string has no [csrftoken=...;]; when both are there it
    posts the follow request for the identifier found and returns whether
    the response is HTTP-OK. *)
Theorem instagram_follow_results (u c : string) (s : state) (page : response) :
  answer (profile_request u c) s = Ret page ->
  let s1 := sent (profile_request u c) s in
  log s1 = (log s ++ [EvRequest (profile_request u c)])%list
  /\ (~ occurs re_profile_page (text page) \/ ~ occurs re_csrftoken c ->
      Actions_instagram_follow (JStr u) (JStr c) s = (Ret false, s1))
  /\ (occurs re_profile_page (text page) -> occurs re_csrftoken c ->
      exists pid,
        re_search re_profile_page (text page) = Some pid
        /\ Actions_instagram_follow (JStr u) (JStr c) s
           = (Ret (followed_of (answer (follow_request pid c) s1)),
              sent (follow_request pid c) s1)
        /\ (fst (Actions_instagram_follow (JStr u) (JStr c) s) = Ret true
            <-> exists rf, answer (follow_request pid c) s1 = Ret rf
                           /\ ok rf = true)).
Proof.
  intros E s1. rewrite Actions_instagram_follow_run, E. fold s1.
  split; [reflexivity|]. split.
  - intros [N | N]; apply re_search_none_iff in N; rewrite N;
      [reflexivity | now destruct (re_search re_profile_page (text page))].
  - intros O1 O2. apply re_search_some_iff in O1 as [pid O1], O2 as [tok O2].
    rewrite O1, O2. exists pid. repeat split.
    + cbn [fst]. unfold followed_of.
      destruct (answer (follow_request pid c) s1) as [rf|e]; intros [= H].
      now exists rf.
    + intros (rf & -> & H). cbn [fst followed_of]. now rewrite H.
Qed.

(** *** What a run adds to the log *)

Lemma count_app (p : event -> bool) (l1 l2 : list event) :
  count p (l1 ++ l2) = (count p l1 + count p l2)%nat.
Proof. unfold count. now rewrite filter_app, length_app. Qed.

(** [m] only adds events outside [p] to the log *)
Definition quiet {A : Type} (p : event -> bool) (m : M A) : Prop :=
  forall s, exists l, log (snd (m s)) = (log s ++ l)%list /\ count p l = 0%nat.

Section Quiet.

Variable p : event -> bool.

Lemma quiet_ret {A : Type} (a : A) : quiet p (ret a).
Proof. intros s. exists []. now rewrite app_nil_r. Qed.

Lemma quiet_lift {A : Type} (r : result A) : quiet p (lift r).
Proof. intros s. exists []. now rewrite app_nil_r. Qed.

Lemma quiet_emit (e : event) : p e = false -> quiet p (emit e).
Proof.
  intros H s. exists [e]. split; [reflexivity|].
  unfold count. cbn. now rewrite H.
Qed.

Lemma quiet_http (r : request) : p (EvRequest r) = false -> quiet p (http r).
Proof.
  intros H s. rewrite http_run. exists [EvRequest r]. split; [reflexivity|].
  unfold count. cbn. now rewrite H.
Qed.

Lemma quiet_input : p EvInput = false -> quiet p input.
Proof.
  intros H s. unfold input. destruct (console_input (world s)).
  exists [EvInput]. split; [reflexivity|]. unfold count. cbn. now rewrite H.
Qed.

Lemma quiet_now_ms : quiet p now_ms.
Proof. intros s. rewrite now_ms_run. exists []. cbn. now rewrite app_nil_r. Qed.

Lemma quiet_bind {A B : Type} (m : M A) (k : A -> M B) :
  quiet p m -> (forall a, quiet p (k a)) -> quiet p (bind m k).
Proof.
  intros Hm Hk s. unfold bind. destruct (Hm s) as (l1 & E1 & C1).
  destruct (m s) as [[a|e] s1]; cbn [snd fst] in *.
  - destruct (Hk a s1) as (l2 & E2 & C2). exists (l1 ++ l2)%list.
    rewrite E2, E1, app_assoc, count_app, C1, C2. auto.
  - exists l1. auto.
Qed.

Lemma quiet_try_as {A : Type} (catches : exn -> bool) (m : M A) (h : exn -> M A) :
  quiet p m -> (forall e, quiet p (h e)) -> quiet p (try_except_as catches m h).
Proof.
  intros Hm Hh s. unfold try_except_as. destruct (Hm s) as (l1 & E1 & C1).
  destruct (m s) as [[a|e] s1]; cbn [snd fst] in *.
  - exists l1. auto.
  - destruct (catches e).
    + destruct (Hh e s1) as (l2 & E2 & C2). exists (l1 ++ l2)%list.
      rewrite E2, E1, app_assoc, count_app, C1, C2. auto.
    + exists l1. auto.
Qed.

Lemma quiet_try {A : Type} (catches : exn -> bool) (m h : M A) :
  quiet p m -> quiet p h -> quiet p (try_except catches m h).
Proof. intros Hm Hh. apply quiet_try_as; auto. Qed.

Lemma quiet_if {A : Type} (b : bool) (m1 m2 : M A) :
  quiet p m1 -> quiet p m2 -> quiet p (if b then m1 else m2).
Proof. now destruct b. Qed.

(** file access does not log *)
Lemma quiet_disk {A : Type} (m : M A) :
  (forall s, log (snd (m s)) = log s) -> quiet p m.
Proof. intros H s. exists []. now rewrite app_nil_r. Qed.

Lemma quiet_Store_ensure_dir : quiet p Store_ensure_dir.
Proof.
  apply quiet_disk. intros [w d l].
  unfold Store_ensure_dir, bind, isdir, makedirs, ret. cbn.
  destruct d as [[|]|f wr]; reflexivity.
Qed.

Lemma quiet_Store_load : quiet p Store_load.
Proof. apply quiet_disk. intros s. apply Store_load_frame. Qed.

Lemma quiet_Store_save (data : json) : quiet p (Store_save data).
Proof.
  apply quiet_disk. intros [w d l].
  unfold Store_save, Store_ensure_dir, bind, isdir, makedirs, write_file, ret.
  cbn. destruct d as [[|]|f [|]]; reflexivity.
Qed.

End Quiet.

(** solve a [quiet] goal by following the structure of the code *)
Ltac quiet_step :=
  match goal with
  | |- quiet _ (bind _ _) => apply quiet_bind; [|intros ?]
  | |- quiet _ (try_except _ _ _) => apply quiet_try
  | |- quiet _ (try_except_as _ _ _) => apply quiet_try_as; [|intros ?]
  | |- quiet _ (ret _) => apply quiet_ret
  | |- quiet _ (lift _) => apply quiet_lift
  | |- quiet _ now_ms => apply quiet_now_ms
  | |- quiet _ (http _) => apply quiet_http; reflexivity
  | |- quiet _ input => apply quiet_input; reflexivity
  | |- quiet _ (emit _) => apply quiet_emit; reflexivity
  | |- quiet _ (sleep _) => apply quiet_emit; reflexivity
  | |- quiet _ (rprint _) => apply quiet_emit; reflexivity
  | |- quiet _ banner => apply quiet_emit; reflexivity
  | |- quiet _ (Store_save _) => apply quiet_Store_save
  | |- quiet _ Store_load => apply quiet_Store_load
  | |- quiet _ Store_ensure_dir => apply quiet_Store_ensure_dir
  | |- quiet _ (if ?b then _ else _) => destruct b
  | |- quiet _ (match ?x with _ => _ end) => destruct x
  | |- quiet _ (let _ := _ in _) => cbv zeta
  end.

Ltac quiet_auto := repeat quiet_step.

(** the operations of the client and the platform actions report no
    success *)
Lemma quiet_client (c idlink taskId code3 : json) (feature vrsta url : string) :
  quiet is_success (L4L_warmup c feature)
  /\ quiet is_success (L4L_get_user_info c)
  /\ quiet is_success (L4L_get_tasks c feature)
  /\ quiet is_success (L4L_start_task c idlink taskId feature)
  /\ quiet is_success (L4L_check_url c url)
  /\ quiet is_success (L4L_validate c feature vrsta idlink taskId code3 url)
  /\ quiet is_success (Actions_open_with_cookies url c)
  /\ quiet is_success (Actions_instagram_follow idlink c).
Proof.
  unfold L4L_warmup, L4L_get_user_info, L4L_get_tasks, L4L_start_task,
    L4L_check_url, L4L_validate, Actions_open_with_cookies,
    Actions_instagram_follow.
  repeat split; quiet_auto.
Qed.

(** *** One pass over a task listing *)

(** the report of a validated task *)
Definition success_event (ss : session) (url : string) (c : Z) : event :=
  EvPrint (MsgSuccess (s_feature ss) (s_vrsta ss) url c).

(** What a pass adds to the log, by its result: with a validated task,
    events without a success report and then the report of that task; in
    all other cases no success report at all. *)
Definition verdict (ss : session) (l : list event) (r : result (option Z)) : Prop :=
  match r with
  | Ret (Some c) =>
      exists l0 url, l = (l0 ++ [success_event ss url c])%list
                     /\ count is_success l0 = 0%nat
  | _ => count is_success l = 0%nat
  end.

Definition judged (ss : session) (m : M (option Z)) : Prop :=
  forall s, exists l, log (snd (m s)) = (log s ++ l)%list
                      /\ verdict ss l (fst (m s)).

Lemma verdict_app (ss : session) (l1 l2 : list event) (r : result (option Z)) :
  count is_success l1 = 0%nat -> verdict ss l2 r -> verdict ss (l1 ++ l2) r.
Proof.
  intros C1 V. destruct r as [[c|]|e]; cbn in *.
  - destruct V as (l0 & url & -> & C0). exists (l1 ++ l0)%list, url.
    rewrite app_assoc, count_app, C1, C0. auto.
  - now rewrite count_app, C1, V.
  - now rewrite count_app, C1, V.
Qed.

Lemma judged_bind {A : Type} (ss : session) (m : M A) (k : A -> M (option Z)) :
  quiet is_success m -> (forall a, judged ss (k a)) -> judged ss (bind m k).
Proof.
  intros Hm Hk s. unfold bind. destruct (Hm s) as (l1 & E1 & C1).
  destruct (m s) as [[a|e] s1]; cbn [snd fst] in *.
  - destruct (Hk a s1) as (l2 & E2 & V). exists (l1 ++ l2)%list.
    rewrite E2, E1, app_assoc. split; [reflexivity | now apply verdict_app].
  - exists l1. auto.
Qed.

Lemma judged_none (ss : session) : judged ss (ret None).
Proof. intros s. exists []. now rewrite app_nil_r. Qed.

Lemma judged_success (ss : session) (url : string) (c : Z) :
  judged ss (bind (rprint (MsgSuccess (s_feature ss) (s_vrsta ss) url c))
               (fun _ => ret (Some c))).
Proof.
  intros s. exists [success_event ss url c]. split; [reflexivity|].
  exists [], url. auto.
Qed.

Ltac judged_step ss :=
  match goal with
  | |- judged _ (bind (rprint (MsgSuccess _ _ _ _)) _) => apply judged_success
  | |- judged _ (bind _ _) => apply judged_bind; [|intros ?]
  | |- judged _ (ret None) => apply judged_none
  | |- judged _ (if ?b then _ else _) => destruct b
  | |- judged _ (match ?x with _ => _ end) => destruct x
  | |- quiet _ (L4L_start_task ?c ?i ?t ?f) =>
      apply (quiet_client c i t t f f f)
  | |- quiet _ (L4L_check_url ?c ?u) =>
      apply (quiet_client c c c c u u u)
  | |- quiet _ (L4L_validate ?c ?f ?v ?i ?t ?k ?u) =>
      apply (quiet_client c i t k f v u)
  | |- quiet _ (Actions_open_with_cookies ?u ?c) =>
      apply (quiet_client c c c c u u u)
  | |- quiet _ (Actions_instagram_follow ?i ?c) =>
      apply (quiet_client c i i i EmptyString EmptyString EmptyString)
  | _ => quiet_step
  end.

Lemma do_task_judged (ss : session) (t : json) : judged ss (do_task ss t).
Proof. unfold do_task. repeat judged_step ss. Qed.

Lemma for_tasks_judged (ss : session) (tasks : list json) :
  judged ss (for_tasks ss tasks).
Proof.
  induction tasks as [|t rest IH]; cbn [for_tasks]; [apply judged_none|].
  intros s. unfold bind. destruct (do_task_judged ss t s) as (l1 & E1 & V1).
  destruct (do_task ss t s) as [[[c|]|e] s1]; cbn [fst snd] in *.
  - exists l1. auto.
  - destruct (IH s1) as (l2 & E2 & V2). exists (l1 ++ l2)%list.
    rewrite E2, E1, app_assoc. split; [reflexivity | now apply verdict_app].
  - exists l1. auto.
Qed.

Lemma emit_run (e : event) (s : state) :
  emit e s = (Ret tt, State (world s) (disk s) (log s ++ [e])).
Proof. reflexivity. Qed.

(** the state after a log entry *)
Definition logged (l : list event) (s : state) : state :=
  State (world s) (disk s) (log s ++ l).

Lemma bind_ret_inv {A B : Type} (m : M A) (k : A -> M B) (s s2 : state) (b : B) :
  bind m k s = (Ret b, s2) ->
  exists a s1, m s = (Ret a, s1) /\ k a s1 = (Ret b, s2).
Proof.
  unfold bind. destruct (m s) as [[a|e] s1]; [|discriminate].
  intros H. now exists a, s1.
Qed.


Lemma lift_ret_inv {A : Type} (r : result A) (s s2 : state) (a : A) :
  lift r s = (Ret a, s2) -> r = Ret a /\ s2 = s.
Proof. unfold lift. now intros [= -> ->]. Qed.

(** a branch that ends in [continue] gives no balance *)
Ltac no_balance H :=
  unfold bind, rprint, sleep, emit, ret in H; cbn in H; discriminate H.

(** *** The delay between passes *)

(** the countdown from [n] seconds: the time left is shown, then a sleep
    of one second, down to one second left *)
Fixpoint ticks (n : nat) : list event :=
  match n with
  | O => []
  | S n' =>
      EvPrint (MsgCountdown (Z.of_nat n / 60) (Z.of_nat n mod 60))
        :: EvSleep 1 :: ticks n'
  end.

(** the delay the user typed, 60 when it is not an integer *)
Definition delay_of (line : string) : Z :=
  match py_int (strip line) with
  | Some d => d
  | None => 60
  end.

Lemma logged_nil (s : state) : logged [] s = s.
Proof. destruct s. unfold logged. cbn. now rewrite app_nil_r. Qed.

Lemma logged_logged (l1 l2 : list event) (s : state) :
  logged l2 (logged l1 s) = logged (l1 ++ l2) s.
Proof. unfold logged. cbn. now rewrite app_assoc. Qed.

Lemma countdown_from_run (n : nat) (s : state) :
  countdown_from n (Z.of_nat n) s = (Ret tt, logged (ticks n) s).
Proof.
  revert s. induction n as [|n IH]; intros s.
  - cbn [countdown_from ticks]. now rewrite logged_nil.
  - cbn [countdown_from ticks]. unfold bind, rprint, sleep. rewrite !emit_run.
    replace (Z.of_nat (S n) - 1) with (Z.of_nat n) by lia.
    rewrite IH. f_equal. unfold logged. cbn [world disk log].
    now rewrite <- !app_assoc.
Qed.

Lemma countdown_run (delay : Z) (s : state) :
  countdown delay s = (Ret tt, logged (ticks (Z.to_nat delay)) s).
Proof.
  unfold countdown. destruct (Z.to_nat delay) as [|n] eqn:E.
  - cbn. now rewrite logged_nil.
  - rewrite <- E. replace delay with (Z.of_nat (Z.to_nat delay)) at 2 by lia.
    apply countdown_from_run.
Qed.

Lemma after_pass_run (ss : session) (processed_any : bool) (s : state) :
  after_pass ss processed_any s
  = (Ret tt,
     logged (if processed_any then ticks (Z.to_nat (s_delay ss))
             else [EvPrint MsgNothingProcessed; EvSleep 10]) s).
Proof.
  unfold after_pass. destruct processed_any; [apply countdown_run|].
  unfold bind, rprint, sleep. rewrite !emit_run. unfold logged. cbn.
  now rewrite <- app_assoc.
Qed.

Lemma read_delay_run (s : state) :
  read_delay s
  = (Ret (delay_of (fst (console_input (world s)))),
     State (snd (console_input (world s))) (disk s) (log s ++ [EvInput])).
Proof.
  unfold read_delay, bind, input, ret, delay_of.
  now destruct (console_input (world s)).
Qed.

(** One round of [while True], step by step. *)
Lemma cycle_run (ss : session) (credits : Z) (s : state) :
  let warm := warmup_request (s_client ss) (s_earn ss) in
  let listing := get_tasks_request (s_client ss) (s_feature ss) in
  let sa := sent warm s in
  let sb := sent listing sa in
  let tasks := tasks_of (answer listing sa) in
  cycle ss credits s
  = match answer warm s with
    | Raise e => (Raise e, sa)
    | Ret _ =>
        if truthy tasks then
          match py_iter tasks with
          | Raise e => (Raise e, sb)
          | Ret items =>
              match for_tasks ss items sb with
              | (Ret (Some c), s2) =>
                  (Ret c, logged (ticks (Z.to_nat (s_delay ss))) s2)
              | (Ret None, s2) =>
                  (Ret credits, logged [EvPrint MsgNothingProcessed; EvSleep 10] s2)
              | (Raise e, s2) => (Raise e, s2)
              end
          end
        else (Ret credits, logged [EvPrint MsgNoTasks; EvSleep 10] sb)
    end.
Proof.
  intros warm listing sa sb tasks. unfold cycle.
  unfold bind at 1. rewrite L4L_warmup_run. fold warm sa.
  destruct (answer warm s) as [w|e]; [|reflexivity].
  unfold bind at 1. rewrite L4L_get_tasks_run. fold listing sb tasks.
  destruct (truthy tasks); cbn [negb].
  - unfold bind at 1, lift at 1.
    destruct (py_iter tasks) as [items|e]; [|reflexivity].
    unfold bind at 1.
    destruct (for_tasks ss items sb) as [[[c|]|e] s2]; [| |reflexivity].
    + unfold bind, ret. now rewrite after_pass_run.
    + unfold bind, ret. now rewrite after_pass_run.
  - unfold bind, rprint, sleep, ret. rewrite !emit_run. unfold logged. cbn.
    now rewrite <- app_assoc.
Qed.



(** a step that returns hands its value and state to what follows *)
Lemma bind_run {A B : Type} (m : M A) (k : A -> M B) (s s1 : state) (a : A) :
  m s = (Ret a, s1) -> bind m k s = k a s1.
Proof. intros H. unfold bind. now rewrite H. Qed.

(** the platform action of a task, as the loop calls it *)
Definition platform_action (ss : session) (idlink : json) (url : string)
  : M bool :=
  if String.eqb (s_feature ss) "instagramfol" then
    c <- lift (py_get (db (s_bot ss)) "Cookies_Instagram" (JStr "")) ;;
    Actions_instagram_follow idlink c
  else Actions_open_with_cookies url (s_platform_cookie ss).

(** From state [s], the task [t] gets as far as [validate] and [validate]
    returns the balance [cs]: the three fields are there, [start_task] and
    [check_url] return true, the target URL is [url], the platform action
    returns true, and after the sleep of 10 seconds [validate] returns [cs],
    leaving the state [sv]. *)
Definition validate_returns (ss : session) (t : json) (s : state)
    (url cs : string) (sv : state) : Prop :=
  exists idlink taskId code3 s1 s2 s3,
    py_getitem t "idlink" = Ret idlink
    /\ py_getitem t "taskId" = Ret taskId
    /\ py_getitem t "code3" = Ret code3
    /\ L4L_start_task (s_client ss) idlink taskId (s_feature ss) s
       = (Ret true, s1)
    /\ target_url (s_feature ss) idlink = Ret url
    /\ L4L_check_url (s_client ss) url s1 = (Ret true, s2)
    /\ platform_action ss idlink url s2 = (Ret true, s3)
    /\ L4L_validate (s_client ss) (s_feature ss) (s_vrsta ss) idlink taskId
         code3 url (logged [EvSleep 10] s3)
       = (Ret (Some cs), sv).

(** what [validate] returns is not the empty string *)
Lemma L4L_validate_nonempty (c : json) (feature vrsta : string)
    (idlinka idzad idclana : json) (url : string) (s sv : state) (cs : string) :
  L4L_validate c feature vrsta idlinka idzad idclana url s = (Ret (Some cs), sv) ->
  String.eqb cs "" = false.
Proof.
  rewrite L4L_validate_run. unfold validated_of. intros [= V _].
  destruct (answer _ s) as [resp|e]; [|discriminate V].
  destruct (ok resp && contains success_marker (text resp)
            && contains credits_key (text resp)); [|discriminate V].
  apply re_search_group in V as (N & _). now apply String.eqb_neq.
Qed.

(** As soon as [validate] returns a balance, the task ends with that
    balance as an integer, and the success report is the last thing it
    does. *)
Lemma do_task_validates (ss : session) (t : json) (s sv : state)
    (url cs : string) (c : Z) :
  validate_returns ss t s url cs sv ->
  py_int cs = Some c ->
  do_task ss t s = (Ret (Some c), logged [success_event ss url c] sv).
Proof.
  intros (idlink & taskId & code3 & s1 & s2 & s3
          & G1 & G2 & G3 & St & U & Ck & Act & V) P.
  pose proof (L4L_validate_nonempty _ _ _ _ _ _ _ _ _ _ V) as N.
  unfold do_task.
  rewrite (bind_run _ _ s s (Some (idlink, taskId, code3)))
    by (unfold try_except, try_except_as, bind, lift, ret;
        now rewrite G1, G2, G3).
  cbv iota beta.
  rewrite (bind_run _ _ s s1 true) by exact St. cbn [negb].
  rewrite (bind_run _ _ s1 s1 url) by (unfold lift; now rewrite U).
  rewrite (bind_run _ _ s1 s2 true) by exact Ck. cbn [negb].
  rewrite (bind_run _ _ s2 s3 true) by exact Act. cbn [negb].
  rewrite (bind_run _ _ s3 (logged [EvSleep 10] s3) tt) by reflexivity.
  rewrite (bind_run _ _ (logged [EvSleep 10] s3) sv (Some cs)) by exact V.
  cbv iota beta. rewrite N. cbn [negb].
  rewrite (bind_run _ _ sv sv c) by (unfold lift; now rewrite P).
  reflexivity.
Qed.




Lemma emit_ret_inv (e : event) (s s' : state) (a : unit) :
  emit e s = (Ret a, s') -> s' = logged [e] s.
Proof. rewrite emit_run. now intros [= <-]. Qed.

(** the session that the loop gets carries the delay read at the prompt *)
Lemma prepare_session_delay (b : bot) (info : json) (s s' : state)
    (ss : session) (credits : Z) :
  prepare_session b info s = (Ret (Some (ss, credits)), s') ->
  s_delay ss = delay_of (fst (console_input (world s))).
Proof.
  unfold prepare_session. intros H.
  apply bind_ret_inv in H as (username & sa & U & H).
  assert (sa = s) as ->.
  { destruct (is_dict info); [now apply lift_ret_inv in U | now injection U]. }
  apply bind_ret_inv in H as (cr & sb & C & H).
  assert (sb = s) as ->.
  { destruct (is_dict info); [|now injection C].
    apply bind_ret_inv in C as (x & sx & C1 & C2).
    apply lift_ret_inv in C1 as [_ ->]. now apply lift_ret_inv in C2. }
  apply bind_ret_inv in H as (? & sc & E1 & H). apply emit_ret_inv in E1 as ->.
  apply bind_ret_inv in H as (? & sd & E2 & H). apply emit_ret_inv in E2 as ->.
  apply bind_ret_inv in H as (? & se & E3 & H). apply emit_ret_inv in E3 as ->.
  apply bind_ret_inv in H as (delay & sf & D & H).
  rewrite read_delay_run in D. cbn [logged world] in D. injection D as <- <-.
  apply bind_ret_inv in H as (choice & sg & _ & H).
  destruct (String.eqb choice "exit" || String.eqb choice "");
    [no_balance H|].
  apply bind_ret_inv in H as (feat & sh & _ & H).
  apply bind_ret_inv in H as (key & si & _ & H).
  apply bind_ret_inv in H as (bc & sj & _ & H).
  now injection H as <- _ _.
Qed.

(** C9: what follows a pass over a listing.  The delay is the integer the
    user typed, 60 when the input is not an integer.  After a pass with a
    validated task the round counts the delay down, showing the time left
    and sleeping one second at a time; after a pass without one it shows a
    notice and sleeps 10 seconds.  The loop then starts its next round,
    which warms up and asks for a fresh task listing. *)
Theorem delay_after_pass (ss : session) :
  (forall s, fst (read_delay s) = Ret (delay_of (fst (console_input (world s)))))
  /\ (forall line, py_int (strip line) = None -> delay_of line = 60)
  /\ (forall line d, py_int (strip line) = Some d -> delay_of line = d)
  /\ (forall b info s s', forall credits,
        prepare_session b info s = (Ret (Some (ss, credits)), s') ->
        s_delay ss = delay_of (fst (console_input (world s))))
  /\ (forall credits s w items r s2,
        let warm := warmup_request (s_client ss) (s_earn ss) in
        let listing := get_tasks_request (s_client ss) (s_feature ss) in
        let tasks := tasks_of (answer listing (sent warm s)) in
        answer warm s = Ret w ->
        truthy tasks = true ->
        py_iter tasks = Ret items ->
        for_tasks ss items (sent listing (sent warm s)) = (Ret r, s2) ->
        cycle ss credits s
        = match r with
          | Some c => (Ret c, logged (ticks (Z.to_nat (s_delay ss))) s2)
          | None => (Ret credits,
                     logged [EvPrint MsgNothingProcessed; EvSleep 10] s2)
          end)
  /\ (forall fuel credits s credits' s',
        cycle ss credits s = (Ret credits', s') ->
        run_loop (S fuel) ss credits s = run_loop fuel ss credits' s')
  /\ (forall credits s,
        let warm := warmup_request (s_client ss) (s_earn ss) in
        let listing := get_tasks_request (s_client ss) (s_feature ss) in
        exists l,
          log (snd (cycle ss credits s)) = (log s ++ EvRequest warm :: l)%list
          /\ (forall w, answer warm s = Ret w -> exists l', l = EvRequest listing :: l')).
Proof.
  repeat split.
  - intros s. now rewrite read_delay_run.
  - intros line H. unfold delay_of. now rewrite H.
  - intros line d H. unfold delay_of. now rewrite H.
  - intros b info s s' credits H. now apply prepare_session_delay in H.
  - intros credits s w items r s2 warm listing tasks A T I F.
    rewrite cycle_run. fold warm listing tasks. rewrite A, T, I, F.
    now destruct r.
  - intros fuel credits s credits' s' H. cbn [run_loop]. unfold bind.
    now rewrite H.
  - intros credits s warm listing. rewrite cycle_run. fold warm listing.
    destruct (answer warm s) as [w|e].
    + set (sb := sent listing (sent warm s)).
      assert (B : log sb = (log s ++ [EvRequest warm; EvRequest listing])%list).
      { unfold sb, sent. cbn [log]. now rewrite <- app_assoc. }
      destruct (truthy _).
      * destruct (py_iter _) as [items|e].
        -- destruct (for_tasks_judged ss items sb) as (l1 & E1 & _).
           destruct (for_tasks ss items sb) as [[[c|]|e] s2]; cbn [snd] in *;
             unfold logged; cbn [log snd]; rewrite ?E1, B;
             eexists; (split; [rewrite <- ?app_assoc; cbn [app]; reflexivity|]);
             intros; eexists; reflexivity.
        -- cbn [snd]. rewrite B. eexists.
           split; [rewrite <- ?app_assoc; cbn [app]; reflexivity|].
           intros; eexists; reflexivity.
      * unfold logged. cbn [log snd]. rewrite B. eexists.
        split; [rewrite <- ?app_assoc; cbn [app]; reflexivity|].
        intros; eexists; reflexivity.
    + cbn [snd]. exists []. split; [reflexivity|]. intros w H. discriminate H.
Qed.

(** *** The login check at startup *)

(** the state after the prompt for the rewards-site cookies, before they
    are stored *)
Definition prompted (s : state) : state :=
  State (snd (console_input (world s))) (disk s)
    (log s ++ [EvPrint MsgBanner; EvPrint MsgAskL4LCookies; EvInput]).

Lemma request_l4l_cookies_ret (b b' : bot) (s s' : state) :
  request_l4l_cookies b s = (Ret b', s') ->
  cookies_l4l b' = JStr (fst (console_input (world s)))
  /\ world s' = world (prompted s)
  /\ log s' = log (prompted s).
Proof.
  unfold request_l4l_cookies, banner, rprint. intros H.
  apply bind_ret_inv in H as (? & sa & E1 & H). apply emit_ret_inv in E1 as ->.
  apply bind_ret_inv in H as (? & sb & E2 & H). apply emit_ret_inv in E2 as ->.
  apply bind_ret_inv in H as (line & sc & I & H).
  unfold input in I. cbn [logged world disk log] in I.
  destruct (console_input (world s)) as [line' w'] eqn:C.
  injection I as <- <-.
  apply bind_ret_inv in H as (d & sd & L & H). apply lift_ret_inv in L as [_ ->].
  apply bind_ret_inv in H as ([] & se & S & H). injection H as <- <-.
  cbn [cookies_l4l]. split; [reflexivity|].
  assert (W : world se = w'
              /\ log se = (((log s ++ [EvPrint MsgBanner])
                             ++ [EvPrint MsgAskL4LCookies]) ++ [EvInput])%list).
  { revert S. unfold Store_save, Store_ensure_dir, bind, isdir, makedirs,
      write_file, ret. cbn.
    destruct (disk s) as [[|]|f [|]]; cbn; intros [= <-]; auto. }
  destruct W as [-> ->]. unfold prompted. rewrite C. cbn.
  now rewrite <- !app_assoc.
Qed.

(** C8: the login check of [run].  When the first user-info call gives
    nothing, the program reports it, waits, prompts once for the cookies and
    asks for the user info a second time with the cookies just typed; when
    that gives nothing either it reports the failure and [run] returns, with
    no request after the second one.  When either call gives the user info,
    [run] goes on with it. *)
Theorem login_retried_once (fuel : nat) (b b1 : bot) (s s0 : state) :
  (if negb (truthy (cookies_l4l b)) then request_l4l_cookies b else ret b) s
  = (Ret b1, s0) ->
  let req1 := user_info_request (cookies_l4l b1) in
  let info1 := user_info_of (answer req1 s0) in
  let s1 := sent req1 s0 in
  (truthy info1 = true -> Bot_run fuel b s = run_session fuel b1 info1 s1)
  /\ (truthy info1 = false ->
      forall b2 s2,
        request_l4l_cookies b1 (logged [EvPrint MsgCookiesInvalid; EvSleep 10] s1)
        = (Ret b2, s2) ->
        let req2 := user_info_request (cookies_l4l b2) in
        let info2 := user_info_of (answer req2 s2) in
        let s3 := sent req2 s2 in
        cookies_l4l b2 = JStr (fst (console_input (world s1)))
        /\ log s3 = (log s0 ++ [EvRequest req1; EvPrint MsgCookiesInvalid;
                               EvSleep 10; EvPrint MsgBanner;
                               EvPrint MsgAskL4LCookies; EvInput;
                               EvRequest req2])%list
        /\ (truthy info2 = true ->
            Bot_run fuel b s = run_session fuel b2 info2 s3)
        /\ (truthy info2 = false ->
            Bot_run fuel b s
            = (Ret Returned, logged [EvPrint MsgVerifyFailed] s3))).
Proof.
  intros P req1 info1 s1.
  assert (V : verify_login b s
              = if truthy info1 then (Ret (Some (b1, info1)), s1)
                else match request_l4l_cookies b1
                             (logged [EvPrint MsgCookiesInvalid; EvSleep 10] s1) with
                     | (Ret b2, s2) =>
                         let req2 := user_info_request (cookies_l4l b2) in
                         let info2 := user_info_of (answer req2 s2) in
                         if truthy info2
                         then (Ret (Some (b2, info2)), sent req2 s2)
                         else (Ret None,
                               logged [EvPrint MsgVerifyFailed] (sent req2 s2))
                     | (Raise e, s2) => (Raise e, s2)
                     end).
  { unfold verify_login. unfold bind at 1. rewrite P.
    unfold bind at 1. rewrite L4L_get_user_info_run. fold req1 info1 s1.
    destruct (truthy info1); cbn [negb]; [reflexivity|].
    unfold bind at 1, rprint at 1. rewrite emit_run.
    unfold bind at 1, sleep at 1. rewrite emit_run. cbn [world disk log].
    rewrite <- app_assoc. cbn [app].
    fold (logged [EvPrint MsgCookiesInvalid; EvSleep 10] s1).
    unfold bind at 1.
    destruct (request_l4l_cookies b1 _) as [[b2|e] s2]; [|reflexivity].
    unfold bind at 1. rewrite L4L_get_user_info_run. cbv zeta.
    destruct (truthy (user_info_of _)); cbn [negb]; [reflexivity|].
    unfold bind, rprint, ret. now rewrite emit_run. }
  split.
  - intros T. unfold Bot_run, bind. now rewrite V, T.
  - intros T b2 s2 R req2 info2 s3.
    pose proof (request_l4l_cookies_ret _ _ _ _ R) as (C & W & L).
    repeat split.
    + exact C.
    + unfold s3, sent. cbn [log]. rewrite L. unfold prompted, logged, s1, sent.
      cbn [log]. now rewrite <- !app_assoc.
    + intros T2. unfold Bot_run, bind. rewrite V, T, R. cbv zeta.
      fold req2 info2. now rewrite T2.
    + intros T2. unfold Bot_run, bind. rewrite V, T, R. cbv zeta.
      fold req2 info2. now rewrite T2.
Qed.

(** *** Stored cookies *)

Lemma assoc_get_set_same {V : Type} (k : string) (v : V) (d : list (string * V)) :
  assoc_get k (assoc_set k v d) = Some v.
Proof.
  induction d as [|[k' v'] d IH]; cbn.
  - now rewrite String.eqb_refl.
  - destruct (String.eqb k k') eqn:E; cbn; rewrite ?String.eqb_refl, ?E; auto.
Qed.

Lemma assoc_get_set_other {V : Type} (k k' : string) (v : V)
    (d : list (string * V)) :
  k' <> k -> assoc_get k' (assoc_set k v d) = assoc_get k' d.
Proof.
  intros N. induction d as [|[k0 v0] d IH]; cbn.
  - destruct (String.eqb_spec k' k); [contradiction | reflexivity].
  - destruct (String.eqb_spec k k0) as [<-|N0]; cbn.
    + destruct (String.eqb_spec k' k); [contradiction | reflexivity].
    + destruct (String.eqb k' k0); [reflexivity | exact IH].
Qed.

Lemma py_setitem_get (v v' : json) (k : string) (x default : json) :
  py_setitem v k x = Ret v' ->
  py_get v' k default = Ret x
  /\ (forall k' y, k' <> k -> py_get v' k' y = py_get v k' y).
Proof.
  destruct v; cbn; try discriminate. intros [= <-]. cbn. split.
  - now rewrite assoc_get_set_same.
  - intros k' y N. now rewrite assoc_get_set_other.
Qed.

(** [Store.save] writes the whole text or raises [OSError]; it raises
    exactly when the directory cannot be made or the file cannot be opened
    for writing. *)
Lemma Store_save_run (data : json) (s : state) :
  Store_save data s
  = match disk s with
    | NoDir false | HasDir _ false => (Raise EOSError, s)
    | _ => (Ret tt,
            State (world s) (HasDir (Regular (json_dumps data)) true) (log s))
    end.
Proof.
  destruct s as [w d l].
  unfold Store_save, Store_ensure_dir, bind, isdir, makedirs, write_file, ret.
  cbn. destruct d as [[|]|f [|]]; reflexivity.
Qed.

Lemma Store_save_ret (data : json) (s s' : state) :
  Store_save data s = (Ret tt, s') ->
  s' = State (world s) (HasDir (Regular (json_dumps data)) true) (log s).
Proof.
  rewrite Store_save_run.
  destruct (disk s) as [[|]|f [|]]; intros [= <-]; reflexivity || discriminate.
Qed.

Lemma input_run (s : state) :
  input s = (Ret (fst (console_input (world s))),
             State (snd (console_input (world s))) (disk s) (log s ++ [EvInput])).
Proof. unfold input. now destruct (console_input (world s)). Qed.

(** X1: what [ensure_platform_cookies] returns is what the mapping holds
    under the key afterwards.  A stored non-empty value is returned as it is,
    with no prompt and no write; otherwise the line typed at the one prompt is
    stored under the key, the whole mapping is written to the cookies file,
    and the line is returned.  The other keys and the rewards-site cookie
    stay as they were. *)
Theorem ensure_platform_cookies_stores (b b' : bot) (key label : string)
    (v : json) (s s' : state) :
  ensure_platform_cookies b key label s = (Ret (b', v), s') ->
  py_get (db b') key (JStr "") = Ret v
  /\ cookies_l4l b' = cookies_l4l b
  /\ (forall k x, k <> key -> py_get (db b') k x = py_get (db b) k x)
  /\ exists stored,
       py_get (db b) key (JStr "") = Ret stored
       /\ if truthy stored
          then v = stored /\ b' = b /\ s' = s
          else v = JStr (fst (console_input (world s)))
               /\ world s' = snd (console_input (world s))
               /\ log s' = (log s ++ [EvPrint (MsgAskPlatformCookies label);
                                      EvInput])%list
               /\ disk s' = HasDir (Regular (json_dumps (db b'))) true.
Proof.
  unfold ensure_platform_cookies. intros H.
  apply bind_ret_inv in H as (stored & s0 & G & H).
  apply lift_ret_inv in G as [G ->].
  destruct (truthy stored) eqn:T.
  - unfold ret in H. injection H as <- <- <-. repeat split; auto.
    exists stored. now rewrite T.
  - apply bind_ret_inv in H as ([] & sa & E & H).
    apply emit_ret_inv in E as ->.
    apply bind_ret_inv in H as (line & sb & I & H).
    rewrite input_run in I. injection I as <- <-.
    apply bind_ret_inv in H as (d & sc & P & H).
    apply lift_ret_inv in P as [P ->].
    apply bind_ret_inv in H as ([] & sd & S & H).
    unfold ret in H. injection H as <- <- <-. apply Store_save_ret in S as ->.
    cbn [db cookies_l4l world disk log logged].
    destruct (py_setitem_get _ _ _ _ (JStr "") P) as [A B].
    repeat split; auto.
    exists stored. rewrite T. repeat split; auto.
    now rewrite <- app_assoc.
Qed.

(** X2: after [request_l4l_cookies] has returned, the line typed at the
    prompt is the client cookie, it is what the mapping holds under
    [Cookies_Like4Like], the other keys are as they were, and the cookies
    file holds the text written for the whole mapping. *)
Theorem request_l4l_cookies_stores (b b' : bot) (s s' : state) :
  request_l4l_cookies b s = (Ret b', s') ->
  let line := fst (console_input (world s)) in
  cookies_l4l b' = JStr line
  /\ py_get (db b') "Cookies_Like4Like" (JStr "") = Ret (JStr line)
  /\ (forall k x, k <> "Cookies_Like4Like" ->
        py_get (db b') k x = py_get (db b) k x)
  /\ disk s' = HasDir (Regular (json_dumps (db b'))) true
  /\ log s' = (log s ++ [EvPrint MsgBanner; EvPrint MsgAskL4LCookies;
                         EvInput])%list.
Proof.
  intros H. cbv zeta. unfold request_l4l_cookies, banner, rprint in H.
  apply bind_ret_inv in H as ([] & sa & E1 & H). apply emit_ret_inv in E1 as ->.
  apply bind_ret_inv in H as ([] & sb & E2 & H). apply emit_ret_inv in E2 as ->.
  apply bind_ret_inv in H as (l & sc & I & H).
  rewrite input_run in I. injection I as <- <-.
  apply bind_ret_inv in H as (d & sd & P & H).
  apply lift_ret_inv in P as [P ->].
  apply bind_ret_inv in H as ([] & se & S & H).
  unfold ret in H. injection H as <- <-. apply Store_save_ret in S as ->.
  cbn [db cookies_l4l world disk log logged].
  destruct (py_setitem_get _ _ _ _ (JStr "") P) as [A B].
  repeat split; auto. now rewrite <- !app_assoc.
Qed.

(** X3: with no stored rewards-site cookie and a cookies file that cannot
    be written, [run] prompts for the cookie and then ends with [OSError]:
    the failure to store is not caught, and no request is sent. *)
Theorem unwritable_store_stops_run (fuel : nat) (b : bot) (s : state)
    (d : list (string * json)) :
  truthy (cookies_l4l b) = false ->
  db b = JDict d ->
  (disk s = NoDir false \/ exists f, disk s = HasDir f false) ->
  Bot_run fuel b s = (Raise EOSError, prompted s).
Proof.
  intros T D W. unfold Bot_run, verify_login.
  unfold bind at 1 2. rewrite T. cbn [negb].
  unfold request_l4l_cookies, banner, rprint.
  unfold bind at 1. rewrite emit_run. unfold bind at 1. rewrite emit_run.
  unfold bind at 1. rewrite input_run. unfold bind at 1, lift at 1.
  rewrite D. cbn [py_setitem]. unfold bind at 1. rewrite Store_save_run.
  cbn [disk world log]. unfold prompted.
  assert (E : (((log s ++ [EvPrint MsgBanner]) ++ [EvPrint MsgAskL4LCookies])
                 ++ [EvInput]
               = log s ++ [EvPrint MsgBanner; EvPrint MsgAskL4LCookies;
                           EvInput])%list)
    by now rewrite <- !app_assoc.
  rewrite E. destruct W as [-> | [f ->]]; reflexivity.
Qed.

(** *** The constructor, the menu and the tables *)

(** what the cookies file decodes to; the empty mapping when there is
    nothing to decode *)
Definition decoded (f : file_state) : json :=
  match f with
  | Regular c => match json_loads c with Ret v => v | Raise _ => JDict [] end
  | Missing | Broken => JDict []
  end.

(** X4: with the storage directory available, [Bot()] takes the stored
    mapping and the rewards-site cookie in it, the empty string when there
    is none (also on a first run, a missing, unreadable or unparsable file);
    when the file holds JSON that is not an object it raises
    [AttributeError]. *)
Theorem Bot_init_results (s : state) :
  disk s <> NoDir false ->
  fst (Bot_init s)
  = match decoded (cookies_file (disk s)) with
    | JDict d =>
        Ret (Bot (JDict d)
               (match assoc_get "Cookies_Like4Like" d with
                | Some c => c
                | None => JStr ""
                end))
    | _ => Raise EAttributeError
    end.
Proof.
  destruct s as [w d l]. cbn [disk]. intros H.
  unfold Bot_init, Store_load, Store_ensure_dir, bind, isdir, makedirs,
    path_exists, try_except, try_except_as, read_file, lift, ret.
  cbn. destruct d as [[|]|[|c|] wr]; cbn; try reflexivity; try congruence.
  destruct (json_loads c) as [v|e]; cbn; [|reflexivity].
  destruct v; reflexivity.
Qed.

(** X5: [menu] prints the menu, reads one line and returns one of the six
    task types, [exit], or the empty string; for every task type it can
    return, both [FEATURES] and [PLATFORM_COOKIE_KEYS] have an entry, so the
    two table lookups of [run] find their key. *)
Theorem menu_choice_in_tables (s : state) :
  exists choice,
    menu s = (Ret choice,
              State (snd (console_input (world s))) (disk s)
                (log s ++ [EvPrint MsgMenu; EvInput]))
    /\ (choice = "exit" \/ choice = ""
        \/ exists f k, assoc_get choice FEATURES = Some f
                       /\ assoc_get choice PLATFORM_COOKIE_KEYS = Some k).
Proof.
  unfold menu, bind, rprint, ret. rewrite emit_run, input_run.
  cbn [world disk log]. rewrite <- app_assoc. cbn [app].
  eexists. split; [reflexivity|].
  set (c := strip (fst (console_input (world s)))).
  unfold menu_mapping. cbn [assoc_get].
  repeat match goal with
         | |- context [String.eqb c ?k] => destruct (String.eqb c k)
         end;
    auto; right; right; eexists; eexists; split; reflexivity.
Qed.

(** *** The generic platform action *)

Definition open_request (url : string) (cookies : json) : request :=
  Request GET url [] cookies (Some 30).

(** X6: [open_with_cookies] sends one GET with a 30-second timeout and
    does not raise; it returns true exactly when the response has status
    200, so any other status, also a successful one, counts as a failed
    action. *)
Theorem open_with_cookies_true_iff (url : string) (cookies : json) (s : state) :
  (exists b, Actions_open_with_cookies url cookies s
             = (Ret b, sent (open_request url cookies) s))
  /\ (fst (Actions_open_with_cookies url cookies s) = Ret true
      <-> exists body, answer (open_request url cookies) s
                       = Ret (Response 200 body)).
Proof.
  unfold Actions_open_with_cookies, open_request, try_except, try_except_as,
    bind, ret.
  rewrite http_run.
  destruct (answer _ s) as [[code body]|e]; cbn [any_exception fst status_code].
  - split; [eauto|]. split.
    + intros [= H]. apply Z.eqb_eq in H as ->. now exists body.
    + intros (body' & [= -> _]). reflexivity.
  - split; [eauto|]. split; [discriminate|]. intros (body & H). discriminate H.
Qed.

(** *** The steps of one task *)


(** X7: a task descriptor that lacks one of the fields [idlink], [taskId],
    [code3] is passed over: nothing is requested, a notice is shown, the
    loop sleeps 10 seconds and goes to the next task.  A task that is not a
    JSON object is not passed over: [TypeError] is raised out of the loop. *)
Theorem malformed_task (ss : session) (t : json) (s : state) :
  (forall d, t = JDict d ->
     assoc_get "idlink" d = None \/ assoc_get "taskId" d = None
     \/ assoc_get "code3" d = None ->
     do_task ss t s
     = (Ret None, logged [EvPrint MsgTaskIncomplete; EvSleep 10] s))
  /\ (is_dict t = false -> do_task ss t s = (Raise ETypeError, s)).
Proof.
  split.
  - intros d -> H. unfold do_task.
    unfold bind at 1. unfold try_except, try_except_as, bind, lift, ret,
      rprint, sleep.
    cbn [py_getitem].
    assert (L : forall st : state,
              State (world st) (disk st)
                ((log st ++ [EvPrint MsgTaskIncomplete]) ++ [EvSleep 10])
              = logged [EvPrint MsgTaskIncomplete; EvSleep 10] st).
    { intros st. unfold logged. now rewrite <- app_assoc. }
    destruct (assoc_get "idlink" d) as [i|]; cbn.
    + destruct (assoc_get "taskId" d) as [k|]; cbn.
      * destruct (assoc_get "code3" d) as [c|]; cbn.
        -- destruct H as [H | [H | H]]; discriminate H.
        -- apply f_equal, L.
      * apply f_equal, L.
    + apply f_equal, L.
  - intros D. unfold do_task, bind, try_except, try_except_as, lift.
    destruct t; try discriminate D; reflexivity.
Qed.


(** *** Rounds that end early *)

(** X9: when the listing request fails in transport, or its response is an
    HTTP error or has no [success] in its body, the round ends after the two
    requests with a notice and a sleep of 10 seconds; no task is touched and
    the balance stays. *)
Theorem round_without_listing (ss : session) (credits : Z) (s : state)
    (w : response) :
  let warm := warmup_request (s_client ss) (s_earn ss) in
  let listing := get_tasks_request (s_client ss) (s_feature ss) in
  let sa := sent warm s in
  answer warm s = Ret w ->
  (exists e, answer listing sa = Raise e)
  \/ (exists resp, answer listing sa = Ret resp
                   /\ (ok resp = false \/ ~ substring_of "success" (text resp))) ->
  cycle ss credits s
  = (Ret credits, logged [EvPrint MsgNoTasks; EvSleep 10] (sent listing sa)).
Proof.
  intros warm listing sa A H. rewrite cycle_run. fold warm listing sa.
  rewrite A.
  assert (T : truthy (tasks_of (answer listing sa)) = false).
  { destruct H as [[e ->] | (resp & -> & [O | N])]; cbn [tasks_of].
    - reflexivity.
    - now rewrite O.
    - destruct (contains "success" (text resp)) eqn:C.
      + apply contains_iff in C. contradiction.
      + now rewrite andb_false_r. }
  now rewrite T.
Qed.

(** X10: a transport failure of the warm-up request ends the loop: the
    exception is raised out of [while True] right after that request,
    whatever the number of rounds still to follow. *)
Theorem warmup_failure_ends_loop (fuel : nat) (ss : session) (credits : Z)
    (s : state) (e : exn) :
  let warm := warmup_request (s_client ss) (s_earn ss) in
  answer warm s = Raise e ->
  run_loop (S fuel) ss credits s = (Raise e, sent warm s).
Proof.
  intros warm A. cbn [run_loop]. unfold bind. rewrite cycle_run. fold warm.
  now rewrite A.
Qed.

(** *** Properties of every event a run logs *)

(** every event that [m] adds to the log satisfies [P] *)
Definition every {A : Type} (P : event -> Prop) (m : M A) : Prop :=
  forall s, exists l, log (snd (m s)) = (log s ++ l)%list /\ Forall P l.

Section Every.

Variable P : event -> Prop.

Lemma every_silent {A : Type} (m : M A) :
  (forall s, log (snd (m s)) = log s) -> every P m.
Proof. intros H s. exists []. now rewrite app_nil_r. Qed.

Lemma every_ret {A : Type} (a : A) : every P (ret a).
Proof. now apply every_silent. Qed.

Lemma every_lift {A : Type} (r : result A) : every P (lift r).
Proof. now apply every_silent. Qed.

Lemma every_now_ms : every P now_ms.
Proof. apply every_silent. intros s. now rewrite now_ms_run. Qed.

Lemma every_emit (e : event) : P e -> every P (emit e).
Proof. intros H s. exists [e]. split; [reflexivity | auto]. Qed.

Lemma every_http (r : request) : P (EvRequest r) -> every P (http r).
Proof.
  intros H s. rewrite http_run. exists [EvRequest r].
  split; [reflexivity | auto].
Qed.

Lemma every_input : P EvInput -> every P input.
Proof.
  intros H s. rewrite input_run. exists [EvInput]. split; [reflexivity | auto].
Qed.

Lemma every_bind {A B : Type} (m : M A) (k : A -> M B) :
  every P m -> (forall a, every P (k a)) -> every P (bind m k).
Proof.
  intros Hm Hk s. unfold bind. destruct (Hm s) as (l1 & E1 & F1).
  destruct (m s) as [[a|e] s1]; cbn [snd fst] in *.
  - destruct (Hk a s1) as (l2 & E2 & F2). exists (l1 ++ l2)%list.
    rewrite E2, E1, app_assoc. split; [reflexivity | now apply Forall_app].
  - exists l1. auto.
Qed.

(** the continuation knows what the library call returned *)
Lemma every_bind_lift {A B : Type} (r : result A) (k : A -> M B) :
  (forall a, r = Ret a -> every P (k a)) -> every P (bind (lift r) k).
Proof.
  intros Hk s. unfold bind, lift. destruct r as [a|e].
  - now apply Hk.
  - exists []. cbn. now rewrite app_nil_r.
Qed.

Lemma every_try_as {A : Type} (catches : exn -> bool) (m : M A) (h : exn -> M A) :
  every P m -> (forall e, every P (h e)) -> every P (try_except_as catches m h).
Proof.
  intros Hm Hh s. unfold try_except_as. destruct (Hm s) as (l1 & E1 & F1).
  destruct (m s) as [[a|e] s1]; cbn [snd fst] in *.
  - exists l1. auto.
  - destruct (catches e).
    + destruct (Hh e s1) as (l2 & E2 & F2). exists (l1 ++ l2)%list.
      rewrite E2, E1, app_assoc. split; [reflexivity | now apply Forall_app].
    + exists l1. auto.
Qed.

Lemma every_try {A : Type} (catches : exn -> bool) (m h : M A) :
  every P m -> every P h -> every P (try_except catches m h).
Proof. intros Hm Hh. apply every_try_as; auto. Qed.

Lemma every_Store_save (data : json) : every P (Store_save data).
Proof.
  apply every_silent. intros s. rewrite Store_save_run.
  destruct (disk s) as [[|]|f [|]]; reflexivity.
Qed.

Lemma every_Store_load : every P Store_load.
Proof. apply every_silent. intros s. apply Store_load_frame. Qed.

End Every.

(** follow the structure of the code; what is left are the facts about
    single events *)
Ltac every_step :=
  match goal with
  | |- every _ (bind (lift _) _) => apply every_bind_lift; intros ? ?
  | |- every _ (bind _ _) => apply every_bind; [|intros ?]
  | |- every _ (try_except _ _ _) => apply every_try
  | |- every _ (try_except_as _ _ _) => apply every_try_as; [|intros ?]
  | |- every _ (ret _) => apply every_ret
  | |- every _ (lift _) => apply every_lift
  | |- every _ now_ms => apply every_now_ms
  | |- every _ (http _) => apply every_http
  | |- every _ input => apply every_input
  | |- every _ (emit _) => apply every_emit
  | |- every _ (sleep _) => apply every_emit
  | |- every _ (rprint _) => apply every_emit
  | |- every _ banner => apply every_emit
  | |- every _ (Store_save _) => apply every_Store_save
  | |- every _ Store_load => apply every_Store_load
  | |- every _ (if ?b then _ else _) => destruct b eqn:?
  | |- every _ (match ?x with _ => _ end) => destruct x eqn:?
  | |- every _ (let _ := _ in _) => cbv zeta
  end.

(** *** Where the cookies go *)











(** *** Time spent asleep *)

(** the seconds of sleep in a stretch of the log *)
Fixpoint slept (l : list event) : Z :=
  match l with
  | [] => 0
  | EvSleep n :: l' => n + slept l'
  | _ :: l' => slept l'
  end.

Definition not_sleep (e : event) : Prop :=
  match e with EvSleep _ => False | _ => True end.

Lemma slept_app (l1 l2 : list event) : slept (l1 ++ l2) = slept l1 + slept l2.
Proof.
  induction l1 as [|e l1 IH]; [reflexivity|].
  destruct e; cbn [app slept]; rewrite IH; lia.
Qed.

Lemma slept_none (l : list event) : Forall not_sleep l -> slept l = 0.
Proof.
  induction 1 as [|e l H _ IH]; [reflexivity|].
  destruct e; cbn in *; try assumption. contradiction.
Qed.

Lemma slept_ticks (n : nat) : slept (ticks n) = Z.of_nat n.
Proof. induction n as [|n IH]; [reflexivity|]. cbn [ticks slept]. lia. Qed.

(** X12: the countdown does not raise; it sleeps [delay] seconds in all,
    none when [delay] is zero or negative, one second after each rendering
    of the time left. *)
Theorem countdown_sleeps (delay : Z) (s : state) :
  exists l,
    countdown delay s = (Ret tt, logged l s)
    /\ slept l = Z.max 0 delay
    /\ Forall (fun e => e = EvSleep 1 \/ exists m sec, e = EvPrint (MsgCountdown m sec)) l
    /\ List.length l = (2 * Z.to_nat delay)%nat.
Proof.
  exists (ticks (Z.to_nat delay)). split; [apply countdown_run|].
  rewrite slept_ticks. split; [lia|].
  generalize (Z.to_nat delay) as n. intros n. split.
  - induction n as [|n IH]; cbn [ticks]; [constructor|].
    constructor; [right; eauto|]. constructor; [now left | exact IH].
  - induction n as [|n IH]; cbn [ticks List.length]; lia.
Qed.

(** the seconds a run sleeps, by its result *)
Definition paced {A : Type} (m : M A) (R : result A -> Z -> Prop) : Prop :=
  forall s, exists l, log (snd (m s)) = (log s ++ l)%list
                      /\ R (fst (m s)) (slept l).

Lemma paced_ret {A : Type} (a : A) (R : result A -> Z -> Prop) :
  R (Ret a) 0 -> paced (ret a) R.
Proof. intros H s. exists []. now rewrite app_nil_r. Qed.

Lemma paced_awake_bind {A B : Type} (m : M A) (k : A -> M B)
    (R : result B -> Z -> Prop) :
  every not_sleep m -> (forall a, paced (k a) R) -> (forall e, R (Raise e) 0) ->
  paced (bind m k) R.
Proof.
  intros Hm Hk He s. unfold bind. destruct (Hm s) as (l1 & E1 & F1).
  apply slept_none in F1.
  destruct (m s) as [[a|e] s1]; cbn [snd fst] in *.
  - destruct (Hk a s1) as (l2 & E2 & R2). exists (l1 ++ l2)%list.
    rewrite E2, E1, app_assoc, slept_app, F1. auto.
  - exists l1. rewrite F1. auto.
Qed.

Lemma paced_sleep_bind {B : Type} (n : Z) (k : unit -> M B)
    (R : result B -> Z -> Prop) :
  paced (k tt) (fun r z => R r (n + z)) -> paced (bind (sleep n) k) R.
Proof.
  intros Hk s. unfold bind, sleep. rewrite emit_run.
  destruct (Hk (State (world s) (disk s) (log s ++ [EvSleep n]))) as (l & E & H).
  exists (EvSleep n :: l). cbn [log] in E. rewrite E, <- app_assoc.
  split; [reflexivity | exact H].
Qed.

(** the requests of the client and the platform actions do not sleep *)
Lemma awake_client (c idlink taskId code3 : json) (feature vrsta url : string) :
  every not_sleep (L4L_start_task c idlink taskId feature)
  /\ every not_sleep (L4L_check_url c url)
  /\ every not_sleep (L4L_validate c feature vrsta idlink taskId code3 url)
  /\ every not_sleep (Actions_open_with_cookies url c)
  /\ every not_sleep (Actions_instagram_follow idlink c).
Proof.
  unfold L4L_start_task, L4L_check_url, L4L_validate, Actions_open_with_cookies,
    Actions_instagram_follow.
  repeat split; repeat every_step; exact I.
Qed.

(** a task that returns has slept between 10 and 20 seconds; one that
    raises, at most 10 *)
Definition task_pace {A : Type} (r : result A) (z : Z) : Prop :=
  0 <= z <= 20 /\ (forall a, r = Ret a -> 10 <= z).

Ltac paced_step :=
  match goal with
  | |- paced (bind (sleep _) _) _ => apply paced_sleep_bind
  | |- paced (bind _ _) _ => apply paced_awake_bind; [|intros ?|intros ?]
  | |- paced (ret _) _ => apply paced_ret
  | |- paced (if ?b then _ else _) _ => destruct b
  | |- paced (match ?x with _ => _ end) _ => destruct x
  | |- every _ (L4L_start_task ?c ?i ?t ?f) => apply (awake_client c i t t f f f)
  | |- every _ (L4L_check_url ?c ?u) => apply (awake_client c c c c u u u)
  | |- every _ (L4L_validate ?c ?f ?v ?i ?t ?k ?u) =>
      apply (awake_client c i t k f v u)
  | |- every _ (Actions_open_with_cookies ?u ?c) =>
      apply (awake_client c c c c u u u)
  | |- every _ (Actions_instagram_follow ?i ?c) =>
      apply (awake_client c i i i EmptyString EmptyString EmptyString)
  | |- every not_sleep _ => every_step
  | |- not_sleep _ => exact I
  | |- _ => cbv beta; unfold task_pace;
            split; [lia | intros; try discriminate; lia]
  end.

(** reading the three fields of a task: they are all there, or the task is
    passed over with a notice and a sleep of 10 seconds, or an exception
    other than [KeyError] is raised *)
Lemma task_fields_cases (t : json) (s : state) :
  let fields :=
    try_except is_KeyError
      (i <- lift (py_getitem t "idlink") ;;
       k <- lift (py_getitem t "taskId") ;;
       c <- lift (py_getitem t "code3") ;;
       ret (Some (i, k, c)))
      (rprint MsgTaskIncomplete ;; sleep 10 ;; ret None) in
  (exists f, fields s = (Ret (Some f), s))
  \/ fields s = (Ret None, logged [EvPrint MsgTaskIncomplete; EvSleep 10] s)
  \/ (exists e, fields s = (Raise e, s)).
Proof.
  assert (L : State (world s) (disk s)
                ((log s ++ [EvPrint MsgTaskIncomplete]) ++ [EvSleep 10])
              = logged [EvPrint MsgTaskIncomplete; EvSleep 10] s).
  { unfold logged. now rewrite <- app_assoc. }
  cbv zeta. unfold try_except, try_except_as, bind, lift, ret, rprint, sleep.
  destruct (py_getitem t "idlink") as [i|e].
  - destruct (py_getitem t "taskId") as [k|e].
    + destruct (py_getitem t "code3") as [c|e]; [left; eauto|].
      destruct (is_KeyError e); [right; left; cbn; now rewrite L | eauto].
    + destruct (is_KeyError e); [right; left; cbn; now rewrite L | eauto].
  - destruct (is_KeyError e); [right; left; cbn; now rewrite L | eauto].
Qed.

Lemma do_task_paced (ss : session) (t : json) : paced (do_task ss t) task_pace.
Proof.
  assert (K : forall B (k : option (json * json * json) -> M B)
                (R : result B -> Z -> Prop),
            (forall f, paced (k (Some f)) R) ->
            paced (k None) (fun r z => R r (10 + z)) ->
            (forall e, R (Raise e) 0) ->
            paced (bind (try_except is_KeyError
                           (i <- lift (py_getitem t "idlink") ;;
                            k <- lift (py_getitem t "taskId") ;;
                            c <- lift (py_getitem t "code3") ;;
                            ret (Some (i, k, c)))
                           (rprint MsgTaskIncomplete ;; sleep 10 ;; ret None)) k)
              R).
  { intros B k R H1 H2 H3 s.
    pose proof (task_fields_cases t s) as C. cbv zeta in C.
    match goal with
    | |- context [bind ?m k s] => set (fields := m) in *
    end.
    unfold bind. destruct C as [[f E] | [E | [e E]]]; rewrite E.
    - apply H1.
    - destruct (H2 (logged [EvPrint MsgTaskIncomplete; EvSleep 10] s))
        as (l & El & H).
      exists ([EvPrint MsgTaskIncomplete; EvSleep 10] ++ l)%list.
      rewrite El. unfold logged. cbn [log]. rewrite <- app_assoc.
      split; [reflexivity | exact H].
    - exists []. cbn. rewrite app_nil_r. auto. }
  unfold do_task. apply K.
  - intros [[idlink taskId] code3]. repeat paced_step.
  - repeat paced_step.
  - intros e. repeat paced_step.
Qed.

(** the sleeps of a pass over a listing, by its result *)
Lemma for_tasks_paced (ss : session) (tasks : list json) (s : state) :
  exists l,
    log (snd (for_tasks ss tasks s)) = (log s ++ l)%list
    /\ 0 <= slept l <= 20 * Z.of_nat (List.length tasks)
    /\ (fst (for_tasks ss tasks s) = Ret None ->
        10 * Z.of_nat (List.length tasks) <= slept l)
    /\ (forall c, fst (for_tasks ss tasks s) = Ret (Some c) -> 10 <= slept l).
Proof.
  revert s. induction tasks as [|t rest IH]; intros s.
  - exists []. cbn [for_tasks ret fst snd slept List.length].
    rewrite app_nil_r. split; [reflexivity|]. split; [lia|].
    split; [intros _; lia | discriminate].
  - cbn [for_tasks]. unfold bind.
    destruct (do_task_paced ss t s) as (l1 & E1 & [B1 R1]).
    destruct (do_task ss t s) as [[[c|]|e] s1]; cbn [fst snd] in *.
    + exists l1. specialize (R1 _ eq_refl). cbn [List.length].
      split; [exact E1|]. split; [lia|].
      split; [discriminate | intros _ _; exact R1].
    + destruct (IH s1) as (l2 & E2 & B2 & N2 & S2).
      specialize (R1 _ eq_refl).
      exists (l1 ++ l2)%list. rewrite E2, E1, app_assoc, slept_app.
      cbn [List.length]. split; [reflexivity|]. split; [lia|]. split.
      * intros H. specialize (N2 H). lia.
      * intros c H. specialize (S2 c H). lia.
    + exists l1. cbn [List.length]. split; [exact E1|]. split; [lia|].
      split; [discriminate | intros c H; discriminate H].
Qed.

(** X13: a pass over a listing sleeps at least 10 seconds for every task
    it goes through and at most 20: at least 10 seconds per listed task when
    no task is validated, at least 10 when one is, never more than 20 per
    listed task. *)
Theorem pass_pacing (ss : session) (tasks : list json) (s : state) :
  exists l,
    log (snd (for_tasks ss tasks s)) = (log s ++ l)%list
    /\ 0 <= slept l <= 20 * Z.of_nat (List.length tasks)
    /\ (fst (for_tasks ss tasks s) = Ret None ->
        10 * Z.of_nat (List.length tasks) <= slept l)
    /\ (forall c, fst (for_tasks ss tasks s) = Ret (Some c) -> 10 <= slept l).
Proof. exact (for_tasks_paced ss tasks s). Qed.

Lemma py_iter_truthy (tasks : json) (items : list json) :
  truthy tasks = true -> py_iter tasks = Ret items -> items <> [].
Proof.
  destruct tasks as [| | |s|l|d]; cbn; try discriminate.
  - destruct s; [discriminate|]. intros _ [= <-]. discriminate.
  - destruct l; [discriminate|]. intros _ [= <-]. discriminate.
  - destruct d; [discriminate|]. intros _ [= <-]. discriminate.
Qed.

Lemma slept_logged_requests (r1 r2 : request) (l : list event) :
  slept (EvRequest r1 :: EvRequest r2 :: l) = slept l.
Proof. reflexivity. Qed.

(** X14: the loop does not spin: a round that comes to its end has slept at
    least 10 seconds, whatever the listing held and whatever the delay is. *)
Theorem round_sleeps (ss : session) (credits credits' : Z) (s s' : state) :
  cycle ss credits s = (Ret credits', s') ->
  exists l, log s' = (log s ++ l)%list /\ 10 <= slept l.
Proof.
  rewrite cycle_run.
  set (warm := warmup_request (s_client ss) (s_earn ss)).
  set (listing := get_tasks_request (s_client ss) (s_feature ss)).
  set (sb := sent listing (sent warm s)).
  assert (B : log sb = (log s ++ [EvRequest warm; EvRequest listing])%list).
  { unfold sb, sent. cbn [log]. now rewrite <- app_assoc. }
  destruct (answer warm s) as [w|e]; [|discriminate].
  destruct (truthy _) eqn:T.
  - destruct (py_iter _) as [items|e] eqn:I; [|discriminate].
    pose proof (py_iter_truthy _ _ T I) as NE.
    destruct (for_tasks_paced ss items sb) as (l & E & Bd & N & S).
    destruct (for_tasks ss items sb) as [[[c|]|e] s2]; cbn [fst snd] in *;
      [| |discriminate].
    + intros [= <- <-]. specialize (S c eq_refl).
      exists ([EvRequest warm; EvRequest listing] ++ l
                ++ ticks (Z.to_nat (s_delay ss)))%list.
      unfold logged. cbn [log]. rewrite E, B, <- !app_assoc.
      split; [reflexivity|].
      cbn [app]. rewrite slept_logged_requests, slept_app, slept_ticks. lia.
    + intros [= <- <-]. specialize (N eq_refl).
      exists ([EvRequest warm; EvRequest listing] ++ l
                ++ [EvPrint MsgNothingProcessed; EvSleep 10])%list.
      unfold logged. cbn [log]. rewrite E, B, <- !app_assoc.
      split; [reflexivity|].
      cbn [app]. rewrite slept_logged_requests, slept_app. cbn [slept]. lia.
  - intros [= <- <-].
    exists [EvRequest warm; EvRequest listing; EvPrint MsgNoTasks; EvSleep 10].
    unfold logged. cbn [log]. rewrite B, <- app_assoc.
    split; [reflexivity | cbn; lia].
Qed.

(** *** Reading the store *)

(** X15: [Store.load] only reads: the cookies file, the outside world and
    the log are after it as before (the directory may have been made), and
    loading again gives the same value. *)
Theorem Store_load_reads_only (s : state) :
  cookies_file (disk (snd (Store_load s))) = cookies_file (disk s)
  /\ world (snd (Store_load s)) = world s
  /\ log (snd (Store_load s)) = log s
  /\ (forall v, fst (Store_load s) = Ret v ->
        fst (Store_load (snd (Store_load s))) = Ret v).
Proof.
  destruct s as [w d l].
  unfold Store_load, Store_ensure_dir, bind, isdir, makedirs, path_exists,
    try_except, try_except_as, read_file, lift, ret.
  cbn.
  destruct d as [[|]|[|c|] wr]; cbn;
    try (destruct (json_loads c) as [j|e] eqn:J; cbn; rewrite ?J; cbn);
    (split; [reflexivity|]); (split; [reflexivity|]); (split; [reflexivity|]);
    intros v H; try discriminate H; exact H.
Qed.

(** *** The Instagram profile address *)

Definition instagram_host : string := "https://www.instagram.com/".

Definition is_slash (c : ascii) : bool := Ascii.eqb c "/"%char.

(** the number of slashes in a string *)
Fixpoint slashes (s : string) : nat :=
  match s with
  | EmptyString => O
  | String c s' => if is_slash c then S (slashes s') else slashes s'
  end.

Lemma slashes_append (a b : string) :
  slashes (a ++ b) = (slashes a + slashes b)%nat.
Proof.
  induction a as [|c a IH]; [reflexivity|].
  cbn [append slashes]. destruct (is_slash c); rewrite IH; reflexivity.
Qed.

Lemma prefix_host_slashes (s : string) :
  String.prefix instagram_host s = true -> (3 <= slashes s)%nat.
Proof.
  intros H. apply prefix_split in H as [r ->].
  rewrite slashes_append. cbn. lia.
Qed.

Lemma replace_host_absent (s : string) :
  (slashes s <= 2)%nat -> replace_from instagram_host "" O s = s.
Proof.
  induction s as [|c s IH]; [reflexivity|]. intros H.
  cbn [replace_from].
  destruct (String.prefix instagram_host (String c s)) eqn:P.
  - apply prefix_host_slashes in P. lia.
  - f_equal. apply IH. cbn [slashes] in H. destruct (is_slash c); lia.
Qed.

Lemma replace_from_skip (old new s1 s2 : string) :
  replace_from old new (String.length s1) (s1 ++ s2)
  = replace_from old new O s2.
Proof.
  induction s1 as [|c s1 IH]; [|exact IH].
  cbn [String.length append]. destruct s2; reflexivity.
Qed.

Lemma replace_from_hit (old : string) (c : ascii) (s' : string) :
  String.prefix old (String c s') = true ->
  replace_from old "" O (String c s')
  = replace_from old "" (Nat.pred (String.length old)) s'.
Proof. intros P. cbn [replace_from]. now rewrite P. Qed.

Lemma replace_host_prefix (x : string) :
  replace instagram_host "" (instagram_host ++ x) = replace instagram_host "" x.
Proof.
  unfold replace.
  assert (E : instagram_host ++ x = String "h" ("ttps://www.instagram.com/" ++ x))
    by reflexivity.
  rewrite E.
  rewrite replace_from_hit by (rewrite <- E; apply prefix_append).
  assert (L : Nat.pred (String.length instagram_host)
              = String.length "ttps://www.instagram.com/") by reflexivity.
  rewrite L. apply replace_from_skip.
Qed.

Lemma lstrip_slash_free (u : string) :
  slashes u = O -> lstrip_by is_slash u = u.
Proof.
  destruct u as [|c u]; [reflexivity|]. cbn [slashes lstrip_by].
  destruct (is_slash c); [discriminate | reflexivity].
Qed.

Lemma rstrip_slash_free (u : string) :
  slashes u = O -> rstrip_by is_slash u = u.
Proof.
  induction u as [|c u IH]; [reflexivity|]. cbn [slashes rstrip_by].
  destruct (is_slash c) eqn:C; [discriminate|]. intros H. rewrite (IH H).
  destruct u; reflexivity.
Qed.

Lemma rstrip_trailing_slash (u : string) :
  slashes u = O -> rstrip_by is_slash (u ++ "/") = u.
Proof.
  induction u as [|c u IH]; [reflexivity|]. cbn [slashes append rstrip_by].
  destruct (is_slash c) eqn:C; [discriminate|]. intros H. rewrite (IH H).
  destruct u; reflexivity.
Qed.

Lemma strip_slash_trailing (u : string) :
  slashes u = O -> strip_slash (u ++ "/") = u /\ strip_slash u = u.
Proof.
  intros H. unfold strip_slash, strip_by. fold is_slash. split.
  - destruct u as [|c u]; [reflexivity|].
    assert (L : lstrip_by is_slash (String c u ++ "/") = String c u ++ "/").
    { cbn [append lstrip_by]. cbn [slashes] in H.
      destruct (is_slash c); [discriminate | reflexivity]. }
    rewrite L. now apply rstrip_trailing_slash.
  - rewrite lstrip_slash_free by exact H. now apply rstrip_slash_free.
Qed.

(** the user name that [instagram_follow] asks the profile page of *)
Definition profile_name (username_or_url : string) : string :=
  strip_slash (replace instagram_host "" username_or_url).

Lemma profile_name_forms (u : string) :
  slashes u = O ->
  profile_name u = u
  /\ profile_name (u ++ "/") = u
  /\ profile_name (instagram_host ++ u) = u
  /\ profile_name (instagram_host ++ u ++ "/") = u.
Proof.
  intros H. unfold profile_name.
  assert (S1 : (slashes (u ++ "/") <= 2)%nat)
    by (rewrite slashes_append, H; cbn; lia).
  rewrite !replace_host_prefix. unfold replace.
  rewrite (replace_host_absent u) by lia.
  rewrite (replace_host_absent (u ++ "/")) by exact S1.
  destruct (strip_slash_trailing u H) as [A B]. auto.
Qed.

(** [instagram_follow] looks at its first argument only through the user
    name it extracts from it. *)
Lemma follow_by_name (u v : string) (cookies : json) (s : state) :
  profile_name u = profile_name v ->
  Actions_instagram_follow (JStr u) cookies s
  = Actions_instagram_follow (JStr v) cookies s.
Proof.
  intros E. unfold Actions_instagram_follow.
  change (strip_slash (replace "https://www.instagram.com/" "" u))
    with (profile_name u).
  change (strip_slash (replace "https://www.instagram.com/" "" v))
    with (profile_name v).
  now rewrite E.
Qed.

(** X16: a task identifier that is the bare user name, the user name with
    a slash after it, or the profile URL with or without the last slash,
    makes [instagram_follow] do the same thing: the profile page asked for
    is that of the user name. *)
Theorem instagram_follow_same_profile (u : string) (cookies : json) (s : state) :
  slashes u = O ->
  let follow := fun id => Actions_instagram_follow (JStr id) cookies s in
  follow (u ++ "/") = follow u
  /\ follow (instagram_host ++ u) = follow u
  /\ follow (instagram_host ++ u ++ "/") = follow u
  /\ forall c, r_url (profile_request u c) = instagram_host ++ u.
Proof.
  intros H follow. destruct (profile_name_forms u H) as (A & B & C & D).
  assert (N : forall v, profile_name v = u -> follow v = follow u).
  { intros v E. unfold follow. apply follow_by_name. now rewrite E, A. }
  split; [now apply N|]. split; [now apply N|]. split; [now apply N|].
  intros c. apply (f_equal (append instagram_host)) in A. exact A.
Qed.

(** X17: [instagram_follow] posts at most once, and only a follow request
    for an identifier read off the profile page it fetched: a non-empty run
    of digits that stands in the page between [profilePage_] and the
    closing quote; and only when the cookie string holds a token. *)
Theorem follow_request_target (u c : string) (s : state) :
  exists l,
    log (snd (Actions_instagram_follow (JStr u) (JStr c) s)) = (log s ++ l)%list
    /\ (count is_post l <= 1)%nat
    /\ forall r, In (EvRequest r) l -> r_method r = POST ->
         exists page pid,
           answer (profile_request u c) s = Ret page
           /\ r = follow_request pid c
           /\ pid <> ""
           /\ all_chars is_digit pid = true
           /\ substring_of (dq ++ "profilePage_" ++ pid ++ dq) (text page)
           /\ occurs re_csrftoken c.
Proof.
  rewrite Actions_instagram_follow_run.
  set (get := profile_request u c).
  assert (G : forall r, In (EvRequest r) [EvRequest get] -> r_method r = POST ->
                        False).
  { intros r [[= <-] | []]. discriminate. }
  destruct (answer get s) as [page|e] eqn:A.
  - destruct (re_search re_profile_page (text page)) as [pid|] eqn:P.
    + destruct (re_search re_csrftoken c) as [tok|] eqn:T.
      * exists [EvRequest get; EvRequest (follow_request pid c)].
        unfold sent. cbn [snd log]. rewrite <- app_assoc.
        split; [reflexivity|]. split; [cbn; lia|].
        intros r [[= <-] | [[= <-] | []]]; [discriminate|]. intros _.
        exists page, pid. apply re_search_group in P as (N & D & S).
        repeat split; auto.
        apply re_search_some_iff. now exists tok.
      * exists [EvRequest get]. split; [reflexivity|]. split; [cbn; lia|].
        intros r I M. destruct (G r I M).
    + exists [EvRequest get]. split; [reflexivity|]. split; [cbn; lia|].
      intros r I M. destruct (G r I M).
  - exists [EvRequest get]. split; [reflexivity|]. split; [cbn; lia|].
    intros r I M. destruct (G r I M).
Qed.

(** *** What the loop leaves alone *)

(** [m] does not touch the storage directory and does not read the
    console *)
Definition unattended {A : Type} (m : M A) : Prop :=
  forall s,
    disk (snd (m s)) = disk s
    /\ exists l, log (snd (m s)) = (log s ++ l)%list /\ count is_input l = 0%nat.

Lemma unattended_ret {A : Type} (a : A) : unattended (ret a).
Proof. intros s. split; [reflexivity|]. exists []. now rewrite app_nil_r. Qed.

Lemma unattended_lift {A : Type} (r : result A) : unattended (lift r).
Proof. intros s. split; [reflexivity|]. exists []. now rewrite app_nil_r. Qed.

Lemma unattended_now_ms : unattended now_ms.
Proof.
  intros s. rewrite now_ms_run. split; [reflexivity|].
  exists []. now rewrite app_nil_r.
Qed.

Lemma unattended_emit (e : event) : is_input e = false -> unattended (emit e).
Proof.
  intros H s. split; [reflexivity|]. exists [e].
  split; [reflexivity|]. unfold count. cbn [filter]. now rewrite H.
Qed.

Lemma unattended_http (r : request) : unattended (http r).
Proof.
  intros s. rewrite http_run. split; [reflexivity|]. now exists [EvRequest r].
Qed.

Lemma unattended_bind {A B : Type} (m : M A) (k : A -> M B) :
  unattended m -> (forall a, unattended (k a)) -> unattended (bind m k).
Proof.
  intros Hm Hk s. unfold bind. destruct (Hm s) as (D1 & l1 & E1 & C1).
  destruct (m s) as [[a|e] s1]; cbn [snd fst] in *.
  - destruct (Hk a s1) as (D2 & l2 & E2 & C2). split; [congruence|].
    exists (l1 ++ l2)%list. rewrite E2, E1, app_assoc, count_app, C1, C2.
    now split.
  - split; [exact D1|]. now exists l1.
Qed.

Lemma unattended_try_as {A : Type} (catches : exn -> bool) (m : M A)
    (h : exn -> M A) :
  unattended m -> (forall e, unattended (h e)) ->
  unattended (try_except_as catches m h).
Proof.
  intros Hm Hh s. unfold try_except_as. destruct (Hm s) as (D1 & l1 & E1 & C1).
  destruct (m s) as [[a|e] s1]; cbn [snd fst] in *.
  - split; [exact D1|]. now exists l1.
  - destruct (catches e).
    + destruct (Hh e s1) as (D2 & l2 & E2 & C2). split; [congruence|].
      exists (l1 ++ l2)%list. rewrite E2, E1, app_assoc, count_app, C1, C2.
      now split.
    + split; [exact D1|]. now exists l1.
Qed.

Ltac unattended_step :=
  match goal with
  | |- unattended (bind _ _) => apply unattended_bind; [|intros ?]
  | |- unattended (try_except _ _ _) => apply unattended_try_as; [|intros ?]
  | |- unattended (try_except_as _ _ _) => apply unattended_try_as; [|intros ?]
  | |- unattended (ret _) => apply unattended_ret
  | |- unattended (lift _) => apply unattended_lift
  | |- unattended now_ms => apply unattended_now_ms
  | |- unattended (http _) => apply unattended_http
  | |- unattended (emit _) => apply unattended_emit; reflexivity
  | |- unattended (sleep _) => apply unattended_emit; reflexivity
  | |- unattended (rprint _) => apply unattended_emit; reflexivity
  | |- unattended (if ?b then _ else _) => destruct b
  | |- unattended (match ?x with _ => _ end) => destruct x
  | |- unattended (let _ := _ in _) => cbv zeta
  end.

Lemma do_task_unattended (ss : session) (t : json) : unattended (do_task ss t).
Proof.
  unfold do_task, L4L_start_task, L4L_check_url, L4L_validate,
    Actions_open_with_cookies, Actions_instagram_follow.
  repeat unattended_step.
Qed.

Lemma for_tasks_unattended (ss : session) (tasks : list json) :
  unattended (for_tasks ss tasks).
Proof.
  induction tasks as [|t rest IH]; cbn [for_tasks]; [apply unattended_ret|].
  apply unattended_bind; [apply do_task_unattended|].
  intros [c|]; [apply unattended_ret | exact IH].
Qed.

Lemma countdown_from_unattended (n : nat) (total : Z) :
  unattended (countdown_from n total).
Proof.
  revert total. induction n as [|n IH]; intros total; cbn [countdown_from].
  - apply unattended_ret.
  - repeat unattended_step. apply IH.
Qed.

Lemma cycle_unattended (ss : session) (credits : Z) :
  unattended (cycle ss credits).
Proof.
  unfold cycle, L4L_warmup, L4L_get_tasks, after_pass, countdown.
  repeat first
    [ apply for_tasks_unattended
    | apply countdown_from_unattended
    | unattended_step ].
Qed.

(** X18: once the loop runs, the program is on its own: however many rounds
    it makes and however they end, it reads nothing from the console, and
    the storage directory and the cookies file are as they were when the
    loop began. *)
Theorem loop_unattended (fuel : nat) (ss : session) (credits : Z) (s : state) :
  disk (snd (run_loop fuel ss credits s)) = disk s
  /\ exists l,
       log (snd (run_loop fuel ss credits s)) = (log s ++ l)%list
       /\ count is_input l = 0%nat.
Proof.
  revert s. change (unattended (run_loop fuel ss credits)).
  revert credits. induction fuel as [|fuel IH]; intros credits;
    cbn [run_loop]; [apply unattended_ret|].
  apply unattended_bind; [apply cycle_unattended | intros c; apply IH].
Qed.

(** *** The handler of the main block *)


(** *** Before the loop *)




(** X21: user info whose [credits] cannot be read as an integer ends [run]
    with the exception of [int], before anything is shown or asked. *)
Theorem bad_credits_stop_run (fuel : nat) (b : bot) (info c : json) (e : exn)
    (s : state) :
  py_get info "credits" (JNum 0) = Ret c ->
  int_of c = Raise e ->
  run_session fuel b info s = (Raise e, s).
Proof.
  intros G N.
  assert (D : is_dict info = true) by (now destruct info).
  unfold run_session, prepare_session, bind, lift. rewrite D, G, N.
  now destruct info.
Qed.

(** *** What the two getters return *)

(** X22: [get_user_info] and [get_tasks] give a value other than [None]
    only for a response that is HTTP-OK, has the word [success] somewhere in
    its body and parses as JSON, and the value is then what the parsed
    object holds under [data], and under [tasks] of [data] for the listing;
    every such response gives that value. *)
Theorem getters_results (c : json) (feature : string) (s : state) (v : json) :
  v <> JNull ->
  (fst (L4L_get_user_info c s) = Ret v
   <-> exists resp j,
         answer (user_info_request c) s = Ret resp
         /\ ok resp = true /\ substring_of "success" (text resp)
         /\ json_loads (text resp) = Ret j
         /\ py_get j "data" JNull = Ret v)
  /\ (fst (L4L_get_tasks c feature s) = Ret v
      <-> exists resp j d,
            answer (get_tasks_request c feature) s = Ret resp
            /\ ok resp = true /\ substring_of "success" (text resp)
            /\ json_loads (text resp) = Ret j
            /\ py_get j "data" (JDict []) = Ret d
            /\ py_get d "tasks" (JList []) = Ret v).
Proof.
  intros N. rewrite L4L_get_user_info_run, L4L_get_tasks_run. cbn [fst].
  unfold user_info_of, tasks_of. split; split.
  - destruct (answer _ s) as [resp|e]; [|intros [= H]; now destruct N].
    destruct (ok resp) eqn:O; cbn [andb]; [|intros [= H]; now destruct N].
    destruct (contains "success" (text resp)) eqn:S;
      [|intros [= H]; now destruct N].
    destruct (json_loads (text resp)) as [j|e] eqn:J;
      [|intros [= H]; now destruct N].
    destruct (py_get j "data" JNull) as [d|e] eqn:G;
      [|intros [= H]; now destruct N].
    intros [= <-]. exists resp, j. apply contains_iff in S.
    repeat split; assumption.
  - intros (resp & j & -> & O & S & J & G). apply contains_iff in S.
    now rewrite O, S, J, G.
  - destruct (answer _ s) as [resp|e]; [|intros [= H]; now destruct N].
    destruct (ok resp) eqn:O; cbn [andb]; [|intros [= H]; now destruct N].
    destruct (contains "success" (text resp)) eqn:S;
      [|intros [= H]; now destruct N].
    destruct (json_loads (text resp)) as [j|e] eqn:J;
      [|intros [= H]; now destruct N].
    destruct (py_get j "data" (JDict [])) as [d|e] eqn:G;
      [|intros [= H]; now destruct N].
    destruct (py_get d "tasks" (JList [])) as [t|e] eqn:T;
      [|intros [= H]; now destruct N].
    intros [= <-]. exists resp, j, d. apply contains_iff in S.
    repeat split; assumption.
  - intros (resp & j & d & -> & O & S & J & G & T). apply contains_iff in S.
    now rewrite O, S, J, G, T.
Qed.

End Properties.

(** ** The JSON writer and reader of the scripted runtime

    What [dumps] writes for a mapping of strings to strings, [loads] reads
    back as the same mapping. *)

Section Codec.

Import Scripted.

Lemma str_body_escape_char (c : ascii) (rest : string) :
  str_body Plain (escape_char c ++ rest) = push c (str_body Plain rest).
Proof.
  destruct c as [b0 b1 b2 b3 b4 b5 b6 b7].
  destruct b0, b1, b2, b3, b4, b5, b6, b7; reflexivity.
Qed.

Lemma str_body_escape (s rest : string) :
  str_body Plain (escape s ++ dq ++ rest) = Some (s, rest).
Proof.
  induction s as [|c s IH]; [reflexivity|].
  cbn [escape]. rewrite append_assoc, str_body_escape_char, IH. reflexivity.
Qed.

(** the character that opens and closes a string *)
Definition quote_char : ascii := ascii_of_nat 34.

Lemma quote_append (s rest : string) :
  quote s ++ rest = String quote_char (escape s ++ dq ++ rest).
Proof. unfold quote, dq. cbn [append]. now rewrite append_assoc. Qed.

Lemma skip_ws_pad (n : nat) (s : string) : skip_ws (pad n ++ s) = skip_ws s.
Proof. induction n as [|n IH]; [reflexivity | exact IH]. Qed.

Lemma skip_ws_indent (n : nat) (s : string) :
  skip_ws (nl ++ pad n ++ s) = skip_ws s.
Proof. cbn. apply skip_ws_pad. Qed.

Lemma skip_ws_quote (s rest : string) :
  skip_ws (quote s ++ rest) = quote s ++ rest.
Proof. rewrite quote_append. reflexivity. Qed.

(** one line of the object written by [dumps] *)
Definition member (kv : string * string) : string :=
  quote (fst kv) ++ ": " ++ quote (snd kv).

Lemma parse_value_string (f : nat) (v tail : string) :
  parse_value (S f) (" " ++ quote v ++ tail) = Some (JStr v, tail).
Proof.
  rewrite quote_append.
  transitivity (match str_body Plain (escape v ++ dq ++ tail) with
                | Some (b, rest) => Some (JStr b, rest)
                | None => None
                end); [reflexivity|].
  now rewrite str_body_escape.
Qed.

Lemma parse_members_step (f : nat) (acc : list (string * json))
    (k v tail : string) :
  parse_members (S (S f)) acc (nl ++ pad 2 ++ member (k, v) ++ tail)
  = match skip_ws tail with
    | String c r =>
        if is_char 44 c then parse_members (S f) (assoc_set k (JStr v) acc) r
        else if is_char 125 c then Some (JDict (assoc_set k (JStr v) acc), r)
        else None
    | EmptyString => None
    end.
Proof.
  unfold member. cbn [fst snd]. rewrite !append_assoc.
  cbn [parse_members]. rewrite skip_ws_indent, skip_ws_quote, quote_append.
  cbv iota beta. change (is_char 34 quote_char) with true. cbv iota.
  rewrite str_body_escape.
  change (skip_ws (": " ++ quote v ++ tail)) with (String ":" (" " ++ quote v ++ tail)).
  cbv iota beta. change (is_char 58 ":") with true. cbv iota.
  now rewrite parse_value_string.
Qed.

(** the mapping read so far, with the remaining lines added *)
Definition add_members (m : list (string * string)) (acc : list (string * json))
  : list (string * json) :=
  fold_left (fun a kv => assoc_set (fst kv) (JStr (snd kv)) a) m acc.

Lemma parse_members_lines (m : list (string * string)) :
  m <> [] ->
  forall f acc, (List.length m <= f)%nat ->
    parse_members (S f) acc
      (nl ++ pad 2 ++ join ("," ++ nl ++ pad 2) (map member m) ++ nl ++ "}")
    = Some (JDict (add_members m acc), EmptyString).
Proof.
  induction m as [|[k v] m IH]; [congruence|]. intros _ f acc L.
  destruct f as [|f]; [cbn in L; lia|].
  destruct m as [|kv m].
  - cbn [map join]. rewrite parse_members_step. reflexivity.
  - change (join ("," ++ nl ++ pad 2) (map member ((k, v) :: kv :: m)))
      with (member (k, v) ++ ("," ++ nl ++ pad 2)
              ++ join ("," ++ nl ++ pad 2) (map member (kv :: m))).
    rewrite !append_assoc, parse_members_step.
    change (skip_ws ("," ++ nl ++ pad 2 ++ ?x)) with (String "," (nl ++ pad 2 ++ x)).
    cbv iota beta. change (is_char 44 ",") with true. cbv iota.
    rewrite IH; [reflexivity | discriminate | cbn in L |- *; lia].
Qed.

Lemma assoc_set_fresh {V : Type} (k : string) (v : V) (d : list (string * V)) :
  ~ In k (map fst d) -> assoc_set k v d = (d ++ [(k, v)])%list.
Proof.
  induction d as [|[k' v'] d IH]; cbn; intros N; [reflexivity|].
  destruct (String.eqb_spec k k') as [->|_]; [tauto|].
  rewrite IH; tauto.
Qed.

Lemma add_members_fresh (m : list (string * string)) :
  NoDup (map fst m) ->
  forall acc, (forall k, In k (map fst m) -> ~ In k (map fst acc)) ->
    add_members m acc
    = (acc ++ map (fun kv => (fst kv, JStr (snd kv))) m)%list.
Proof.
  induction m as [|[k v] m IH]; cbn [map fst snd]; intros D acc F.
  - cbn. now rewrite app_nil_r.
  - inversion D as [|? ? N D']; subst. cbn [add_members fold_left fst snd].
    rewrite assoc_set_fresh by (apply F; now left).
    fold (add_members m (acc ++ [(k, JStr v)])).
    rewrite IH; [now rewrite <- app_assoc| assumption |].
    intros k' I. rewrite map_app, in_app_iff. cbn.
    intros [A | [<- | []]]; [apply (F k'); [now right | exact A] | tauto].
Qed.

Lemma join_members_head (kv : string * string) (m : list (string * string)) :
  exists rest,
    join ("," ++ nl ++ pad 2) (map member (kv :: m)) = quote (fst kv) ++ rest.
Proof.
  destruct m as [|kv' m]; cbn [map join]; unfold member at 1.
  - now exists (": " ++ quote (snd kv)).
  - rewrite !append_assoc. eexists. reflexivity.
Qed.

Lemma join_members_length (m : list (string * string)) :
  (List.length m
   <= String.length (join ("," ++ nl ++ pad 2) (map member m)))%nat.
Proof.
  induction m as [|kv m IH]; [cbn; lia|].
  destruct m as [|kv' m].
  - cbn [map join]. unfold member, quote, dq. rewrite !length_append. cbn. lia.
  - change (join ("," ++ nl ++ pad 2) (map member (kv :: kv' :: m)))
      with (member kv ++ ("," ++ nl ++ pad 2)
              ++ join ("," ++ nl ++ pad 2) (map member (kv' :: m))).
    rewrite !length_append.
    change (String.length ",") with 1%nat.
    cbn [List.length] in *. lia.
Qed.

Lemma dumps_str_dict (m : list (string * string)) :
  m <> [] ->
  dumps (str_dict m)
  = "{" ++ nl ++ pad 2 ++ join ("," ++ nl ++ pad 2) (map member m) ++ nl ++ "}".
Proof.
  intros N. unfold dumps, str_dict.
  destruct m as [|kv m]; [congruence|].
  cbn [map dumps_at]. rewrite map_map.
  change (map (fun x : string * string =>
                 let (k, x0) := (fst x, JStr (snd x)) in
                 quote k ++ ": " ++ dumps_at (0 + 2) x0) m)
    with (map member m).
  reflexivity.
Qed.

Lemma parse_value_object (f : nat) (r : string) :
  head_is (is_char 125) (skip_ws r) = false ->
  parse_value (S f) ("{" ++ r) = parse_members f [] r.
Proof.
  intros H. cbn [parse_value].
  change (skip_ws ("{" ++ r)) with (String "{" r).
  cbv iota beta. change (is_char 123 "{") with true. cbv iota.
  now rewrite H.
Qed.

(** [loads] reads back what [dumps] writes for a mapping of strings. *)
Lemma loads_dumps_str_dict (m : list (string * string)) :
  NoDup (map fst m) -> loads (dumps (str_dict m)) = Ret (str_dict m).
Proof.
  intros D. destruct m as [|kv m]; [reflexivity|].
  rewrite dumps_str_dict by discriminate.
  set (body := join ("," ++ nl ++ pad 2) (map member (kv :: m))).
  unfold loads.
  assert (L : (List.length (kv :: m) <= String.length body)%nat)
    by apply join_members_length.
  set (rest := nl ++ pad 2 ++ body ++ nl ++ "}").
  assert (F : exists f, String.length ("{" ++ rest) = S f
                        /\ (List.length (kv :: m) <= f)%nat).
  { unfold rest. exists (String.length ("{" ++ rest) - 1)%nat.
    unfold rest. cbn [append String.length]. rewrite !length_append.
    cbn [String.length] in *. lia. }
  destruct F as (f & -> & Lf).
  assert (P : parse_value (S (S f)) ("{" ++ rest)
              = parse_members (S f) [] rest).
  { apply parse_value_object. unfold rest. rewrite skip_ws_indent.
    destruct (join_members_head kv m) as [tl E]. fold body in E. rewrite E.
    rewrite append_assoc, skip_ws_quote, quote_append. reflexivity. }
  rewrite P. unfold rest, body.
  rewrite parse_members_lines by (discriminate || assumption).
  cbn [skip_ws]. rewrite add_members_fresh; [reflexivity | assumption |].
  intros k _ [].
Qed.

End Codec.

(** With the writer and reader of the scripted runtime, a mapping of
    strings that [Store.save] has written is what [Store.load] returns. *)
Lemma Store_save_load_scripted (m : list (string * string))
    (s : @state Scripted.runtime) :
  NoDup (map fst m) ->
  fst (@Store_save Scripted.runtime (str_dict m) s) = Ret tt ->
  fst (bind (@Store_save Scripted.runtime (str_dict m))
         (fun _ => @Store_load Scripted.runtime) s)
  = Ret (str_dict m).
Proof.
  intros D Hs. rewrite Store_save_then_load by exact Hs.
  change (@json_loads Scripted.runtime) with Scripted.loads.
  change (@json_dumps Scripted.runtime) with Scripted.dumps.
  now rewrite loads_dumps_str_dict.
Qed.

(** ** The balance as an integer

    What [validate] returns is a run of digits, and [int] of the scripted
    runtime reads every run of digits: with it, a balance returned by
    [validate] always ends the task with the success report. *)

Lemma digit_is_plain (c : ascii) :
  is_digit c = true ->
  is_space c = false /\ Scripted.is_char 45 c = false
  /\ Scripted.is_char 43 c = false.
Proof.
  destruct c as [b0 b1 b2 b3 b4 b5 b6 b7].
  destruct b0, b1, b2, b3, b4, b5, b6, b7; try discriminate; now intros _.
Qed.

Lemma lstrip_digits (s : string) :
  all_chars is_digit s = true -> lstrip_by is_space s = s.
Proof.
  destruct s as [|c s]; [reflexivity|]. cbn [all_chars lstrip_by].
  intros H. apply andb_prop in H as [D _].
  now destruct (digit_is_plain c D) as (-> & _).
Qed.

Lemma rstrip_digits (s : string) :
  all_chars is_digit s = true -> rstrip_by is_space s = s.
Proof.
  induction s as [|c s IH]; [reflexivity|]. cbn [all_chars rstrip_by].
  intros H. apply andb_prop in H as [D A]. rewrite (IH A).
  destruct (digit_is_plain c D) as (-> & _). now destruct s.
Qed.

Lemma int_digits_total (s : string) (acc : Z) (after_digit : bool) :
  all_chars is_digit s = true ->
  s <> "" \/ after_digit = true ->
  exists n, Scripted.int_digits acc after_digit s = Some n.
Proof.
  revert acc after_digit. induction s as [|c s IH]; intros acc b A N.
  - destruct N as [N | ->]; [now destruct N | now exists acc].
  - cbn [all_chars] in A. apply andb_prop in A as [D A].
    cbn [Scripted.int_digits]. rewrite D. apply IH; auto.
Qed.

Lemma int_of_string_digits (s : string) :
  s <> "" -> all_chars is_digit s = true ->
  exists n, Scripted.int_of_string s = Some n.
Proof.
  intros N A. unfold Scripted.int_of_string, strip, strip_by.
  rewrite (lstrip_digits s A), (rstrip_digits s A).
  destruct s as [|c s]; [now destruct N|].
  pose proof A as A'. cbn [all_chars] in A'. apply andb_prop in A' as [D _].
  destruct (digit_is_plain c D) as (_ & -> & ->).
  apply int_digits_total; [exact A | now left].
Qed.

(** With the scripted runtime: as soon as [validate] returns a balance, the
    task ends with it as an integer and with the success report last. *)
Lemma do_task_validates_scripted (ss : session) (t : json)
    (s sv : @state Scripted.runtime) (url cs : string) :
  @validate_returns Scripted.runtime ss t s url cs sv ->
  exists c,
    Scripted.int_of_string cs = Some c
    /\ @do_task Scripted.runtime ss t s
       = (Ret (Some c), logged [success_event ss url c] sv).
Proof.
  intros V.
  assert (D : cs <> "" /\ all_chars is_digit cs = true).
  { destruct V as (i & k & d & s1 & s2 & s3 & _ & _ & _ & _ & _ & _ & _ & V).
    rewrite L4L_validate_run in V. injection V as V _.
    unfold validated_of in V.
    destruct (answer _ _) as [resp|e]; [|discriminate V].
    destruct (ok resp && contains success_marker (text resp)
              && contains credits_key (text resp)); [|discriminate V].
    apply re_search_group in V as (N & A & _). now split. }
  destruct D as [N A]. destruct (int_of_string_digits cs N A) as [c P].
  exists c. split; [exact P|]. now apply (do_task_validates ss t s sv url cs c).
Qed.

(** ** The properties on example inputs *)

Import Examples.

#[local] Existing Instance Scripted.runtime.

Lemma Store_load_returns_witness :
  disk populated <> NoDir false
  /\ fst (Store_load populated)
     = Ret (JDict [("Cookies_Like4Like", JStr "PHPSESSID=abc123")]).
Proof.
  split; [discriminate | exact (Store_load_returns populated ltac:(discriminate))].
Defined.

(** C1, as stated, fails: with the cookies file missing, [Store.load()]
    raises when the storage directory cannot be created. *)
Lemma Store_load_raises_without_dir :
  cookies_file (disk blocked) = Missing
  /\ fst (Store_load blocked) = Raise EOSError.
Proof. split; reflexivity. Qed.

Lemma Store_save_load_witness :
  fst (Store_save (str_dict stored) fresh) = Ret tt
  /\ fst (bind (Store_save (str_dict stored)) (fun _ => Store_load) fresh)
     = Ret (str_dict stored).
Proof.
  split; [reflexivity|].
  apply (Store_save_load stored fresh); reflexivity.
Defined.

Lemma target_url_templates_witness :
  youtube_path "channel/UC123"
  /\ url_for "yt_subscribe" "channel/UC123"
     = Ret "https://www.youtube.com/channel/UC123".
Proof.
  assert (Y : youtube_path "channel/UC123")
    by (right; left; now exists "UC123").
  split; [exact Y|].
  apply (target_url_templates "channel/UC123"); [now right | exact Y].
Defined.

(** C4: [warmup] is not guarded like the other five operations: its
    request carries no timeout, and a transport failure is raised to the
    caller. *)
Theorem L4L_warmup_raises :
  L4L_warmup l4l_cookie "/user/earn-youtube.php" offline
  = (Raise ERequest,
     logged [EvRequest (Request GET "https://www.like4like.org/user/earn-youtube.php"
                          [] l4l_cookie None)]
       (Scripted.start (Scripted.Script [] [] 1700000000000)
          (HasDir (Regular stored_text) true))).
Proof. reflexivity. Qed.

(** with [warmup] raising, the round and the loop end with the exception *)
Lemma run_loop_raises_on_warmup :
  fst (run_loop 5 subscribe 120 offline) = Raise ERequest.
Proof. reflexivity. Qed.

(** C5, as stated, fails: the body has the success marker and a credits
    field with digits, the response is a server error, and [validate]
    returns nothing. *)
Lemma validate_none_on_server_error :
  answer (validate_request l4l_cookie "youtubes" "subscribe" (JStr "chan1")
            (JStr "t1") (JStr "c1") "https://www.youtube.com/watch?v=chan1")
         server_error
  = Ret (Response 500 success_body)
  /\ contains success_marker success_body = true
  /\ contains credits_key success_body = true
  /\ re_search re_credits success_body = Some "125"
  /\ fst (L4L_validate l4l_cookie "youtubes" "subscribe" (JStr "chan1")
            (JStr "t1") (JStr "c1") "https://www.youtube.com/watch?v=chan1"
            server_error)
     = Ret None.
Proof. repeat split; reflexivity. Qed.

Lemma check_url_validate_results_witness :
  answer (validate_request l4l_cookie "youtubes" "subscribe" (JStr "chan1")
            (JStr "t1") (JStr "c1") "https://www.youtube.com/watch?v=chan1")
         denied
  = Ret (Response 200 "denied")
  /\ fst (L4L_validate l4l_cookie "youtubes" "subscribe" (JStr "chan1")
            (JStr "t1") (JStr "c1") "https://www.youtube.com/watch?v=chan1"
            denied)
     = Ret None.
Proof.
  split; [reflexivity|].
  apply (check_url_validate_results l4l_cookie (JStr "chan1") (JStr "t1")
           (JStr "c1") "youtubes" "subscribe"
           "https://www.youtube.com/watch?v=chan1" denied)
    with (resp := Response 200 "denied"); [reflexivity|].
  intros H. apply contains_iff in H. discriminate H.
Defined.

(** [start_task] does not look at the status code *)
Lemma start_task_true_on_server_error :
  fst (L4L_start_task l4l_cookie (JStr "chan1") (JStr "t1") "youtubes"
         started_with_error)
  = Ret true.
Proof. reflexivity. Qed.

Lemma instagram_follow_results_witness :
  answer (profile_request "https://www.instagram.com/alice/" instagram_cookie)
         follow_accepted
  = Ret profile_page
  /\ fst (Actions_instagram_follow (JStr "https://www.instagram.com/alice/")
            (JStr instagram_cookie) follow_accepted)
     = Ret true.
Proof.
  split; [reflexivity|].
  destruct (instagram_follow_results "https://www.instagram.com/alice/"
              instagram_cookie follow_accepted profile_page eq_refl)
    as (_ & _ & H).
  destruct H as (pid & E & R & _).
  - apply re_search_some_iff. now exists "4242".
  - apply re_search_some_iff. now exists "tok123".
  - rewrite R. injection E as <-. reflexivity.
Defined.







Lemma delay_after_pass_witness :
  delay_of "soon" = 60
  /\ cycle subscribe 120 idle_round
     = (Ret 120,
        logged [EvPrint MsgNothingProcessed; EvSleep 10]
          (snd (for_tasks subscribe [task1]
                  (sent (get_tasks_request l4l_cookie "youtubes")
                     (sent (warmup_request l4l_cookie
                              "/user/earn-youtube-subscribe.php") idle_round))))).
Proof.
  destruct (delay_after_pass subscribe) as (_ & D & _ & _ & C & _).
  split; [apply D; reflexivity|].
  apply (C 120 idle_round (Response 200 "") [task1] None); reflexivity.
Defined.

Lemma login_retried_once_witness :
  fst (Bot_run 1 the_bot refused_twice) = Ret Returned
  /\ log (snd (Bot_run 1 the_bot refused_twice))
     = [EvRequest (user_info_request l4l_cookie);
        EvPrint MsgCookiesInvalid; EvSleep 10; EvPrint MsgBanner;
        EvPrint MsgAskL4LCookies; EvInput;
        EvRequest (user_info_request (JStr "PHPSESSID=new456"));
        EvPrint MsgVerifyFailed].
Proof.
  destruct (login_retried_once 1 the_bot the_bot refused_twice refused_twice
              eq_refl) as (_ & H).
  destruct (H eq_refl _ _ eq_refl) as (_ & _ & _ & R).
  rewrite (R eq_refl). split; reflexivity.
Defined.

(** ** Further example inputs *)

(** a bot on a first run: nothing stored, no cookie *)
Definition newcomer : bot := Bot (JDict []) (JStr "").

(** the directory is there and nothing can be written in it *)
Definition read_only : @state Scripted.runtime :=
  Scripted.start silent (HasDir Missing false).

(** the user types a line at the prompt; no request is answered *)
Definition typing (line : string) : @state Scripted.runtime := at_home [] [line].

(** the start endpoint answers without the success marker *)
Definition busy : @state Scripted.runtime :=
  at_home [Ret (Response 200 "busy")] [].

(** the warm-up is answered, the listing is a server error *)
Definition no_listing : @state Scripted.runtime :=
  at_home [Ret (Response 200 ""); Ret (Response 500 "oops")] [].

(** a task descriptor without [taskId] and [code3] *)
Definition half_task : json := JDict [("idlink", JStr "chan1")].

Lemma ensure_platform_cookies_stores_witness :
  exists b' s',
    ensure_platform_cookies the_bot "Cookies_Instagram" "Instagram"
      (typing "sessionid=9")
    = (Ret (b', JStr "sessionid=9"), s')
    /\ py_get (db b') "Cookies_Instagram" (JStr "") = Ret (JStr "sessionid=9")
    /\ py_get (db b') "Cookies_Youtube" (JStr "") = Ret (JStr "SID=yt1")
    /\ disk s' = HasDir (Regular (json_dumps (db b'))) true.
Proof.
  eexists. eexists. split; [reflexivity|].
  destruct (ensure_platform_cookies_stores the_bot _ "Cookies_Instagram"
              "Instagram" _ (typing "sessionid=9") _ eq_refl)
    as (P & _ & K & stored & G & R).
  split; [exact P|]. split; [now rewrite K by discriminate|].
  injection G as <-. apply R.
Defined.

Lemma request_l4l_cookies_stores_witness :
  exists b' s',
    request_l4l_cookies the_bot (typing "PHPSESSID=new456") = (Ret b', s')
    /\ cookies_l4l b' = JStr "PHPSESSID=new456"
    /\ py_get (db b') "Cookies_Youtube" (JStr "") = Ret (JStr "SID=yt1")
    /\ disk s' = HasDir (Regular (json_dumps (db b'))) true.
Proof.
  eexists. eexists. split; [reflexivity|].
  pose proof (request_l4l_cookies_stores the_bot _ (typing "PHPSESSID=new456")
                _ eq_refl) as H.
  cbv zeta in H. destruct H as (C & _ & K & D & _).
  split; [exact C|]. split; [now rewrite K by discriminate | exact D].
Defined.

Lemma unwritable_store_stops_run_witness :
  truthy (cookies_l4l newcomer) = false
  /\ disk read_only = HasDir Missing false
  /\ Bot_run 3 newcomer read_only = (Raise EOSError, prompted read_only).
Proof.
  split; [reflexivity|]. split; [reflexivity|].
  apply (unwritable_store_stops_run 3 newcomer read_only []);
    [reflexivity | reflexivity | right; now exists Missing].
Defined.

Lemma Bot_init_results_witness :
  disk populated <> NoDir false
  /\ fst (Bot_init populated)
     = Ret (Bot (JDict [("Cookies_Like4Like", JStr "PHPSESSID=abc123")])
              (JStr "PHPSESSID=abc123")).
Proof.
  split; [discriminate | exact (Bot_init_results populated ltac:(discriminate))].
Defined.

Lemma malformed_task_witness :
  do_task subscribe half_task full_pass
  = (Ret None, logged [EvPrint MsgTaskIncomplete; EvSleep 10] full_pass)
  /\ do_task subscribe (JNum 7) full_pass = (Raise ETypeError, full_pass).
Proof.
  destruct (malformed_task subscribe half_task full_pass) as [A _].
  destruct (malformed_task subscribe (JNum 7) full_pass) as [_ B].
  split; [apply (A _ eq_refl); right; now left | exact (B eq_refl)].
Defined.


Lemma round_without_listing_witness :
  cycle subscribe 120 no_listing
  = (Ret 120,
     logged [EvPrint MsgNoTasks; EvSleep 10]
       (sent (get_tasks_request l4l_cookie "youtubes")
          (sent (warmup_request l4l_cookie "/user/earn-youtube-subscribe.php")
             no_listing))).
Proof.
  apply (round_without_listing subscribe 120 no_listing (Response 200 ""));
    [reflexivity|].
  right. exists (Response 500 "oops"). split; [reflexivity | now left].
Defined.

Lemma warmup_failure_ends_loop_witness :
  run_loop 5 subscribe 120 offline
  = (Raise ERequest,
     sent (warmup_request l4l_cookie "/user/earn-youtube-subscribe.php") offline).
Proof.
  exact (warmup_failure_ends_loop 4 subscribe 120 offline ERequest eq_refl).
Defined.

Lemma pass_pacing_witness :
  exists l,
    log (snd (for_tasks subscribe [task1] busy)) = (log busy ++ l)%list
    /\ 10 <= slept l <= 20.
Proof.
  destruct (pass_pacing subscribe [task1] busy) as (l & E & [_ U] & N & _).
  exists l. split; [exact E|]. split; [exact (N eq_refl) | exact U].
Defined.

Lemma round_sleeps_witness :
  exists l,
    log (snd (cycle subscribe 120 idle_round)) = (log idle_round ++ l)%list
    /\ 10 <= slept l.
Proof.
  apply (round_sleeps subscribe 120 120 idle_round
           (snd (cycle subscribe 120 idle_round))).
  reflexivity.
Defined.

Lemma Store_load_reads_only_witness :
  fst (Store_load populated)
  = Ret (JDict [("Cookies_Like4Like", JStr "PHPSESSID=abc123")])
  /\ fst (Store_load (snd (Store_load populated)))
     = Ret (JDict [("Cookies_Like4Like", JStr "PHPSESSID=abc123")]).
Proof.
  destruct (Store_load_reads_only populated) as (_ & _ & _ & R).
  split; [reflexivity | exact (R _ eq_refl)].
Defined.

Lemma instagram_follow_same_profile_witness :
  slashes "alice" = O
  /\ Actions_instagram_follow (JStr "https://www.instagram.com/alice/")
       (JStr instagram_cookie) follow_accepted
     = Actions_instagram_follow (JStr "alice") (JStr instagram_cookie)
         follow_accepted.
Proof.
  split; [reflexivity|].
  pose proof (instagram_follow_same_profile "alice" (JStr instagram_cookie)
                follow_accepted eq_refl) as H.
  cbv zeta in H. destruct H as (_ & _ & H & _). exact H.
Defined.

Lemma follow_request_target_witness :
  exists page pid,
    answer (profile_request "alice" instagram_cookie) follow_accepted = Ret page
    /\ follow_request "4242" instagram_cookie = follow_request pid instagram_cookie
    /\ all_chars is_digit pid = true
    /\ occurs re_csrftoken instagram_cookie.
Proof.
  destruct (follow_request_target "alice" instagram_cookie follow_accepted)
    as (l & E & _ & P).
  change (log follow_accepted ++ l)%list with l in E. rewrite <- E in P.
  destruct (P (follow_request "4242" instagram_cookie))
    as (page & pid & A & R & _ & D & _ & T);
    [right; left; reflexivity | reflexivity |].
  exists page, pid. auto.
Defined.


Definition odd_account : json :=
  JDict [("username", JStr "ann"); ("credits", JStr "1,250")].

(** the user types a delay and then the exit choice *)
Definition leaving : @state Scripted.runtime := at_home [] ["30"; "7 "].

(** the listing request is answered with the listing of one task *)
Definition listed : @state Scripted.runtime :=
  at_home [Ret (Response 200 listing_body)] [].



Lemma bad_credits_stop_run_witness :
  int_of (JStr "1,250") = Raise EValueError
  /\ run_session 5 the_bot odd_account leaving = (Raise EValueError, leaving).
Proof.
  split; [reflexivity|].
  apply (bad_credits_stop_run 5 the_bot odd_account (JStr "1,250") EValueError
           leaving); reflexivity.
Defined.

Lemma getters_results_witness :
  fst (L4L_get_tasks l4l_cookie "youtubes" listed) = Ret (JList [task1]).
Proof.
  destruct (getters_results l4l_cookie "youtubes" listed (JList [task1])
              ltac:(discriminate)) as [_ [_ R]].
  apply R. eexists. eexists. eexists.
  split; [reflexivity|]. split; [reflexivity|].
  split; [apply contains_iff; reflexivity|].
  split; [reflexivity|]. split; reflexivity.
Defined.
